(** * citk.model: the feed-forward network [FFN] and its training loop

    A shallow embedding of [src/citk/model.py].  Python floats are IEEE 754
    binary64 values ([spec_float] with precision 53 and maximal exponent
    1024), so comparisons against [np.inf] and NaN behave as they do in the
    interpreter.  Arrays holding the parameter vector live in a heap and are
    named by references, which is what makes [deepcopy] observable.
    Exceptions are values of [res]; code that also mutates [self] or the
    heap runs in the state-and-exception monad [M]. *)

From Stdlib Require Import ZArith Floats.SpecFloat.
From stdpp Require Import gmap strings list.

Set Default Proof Using "Type".
Open Scope Z_scope.

(** ** Python scalars and arrays *)

Abbreviation float := spec_float.

Definition fadd : float → float → float := SFadd 53 1024.
Definition fmul : float → float → float := SFmul 53 1024.

(** [a < b] and [a > b] on floats; both are false as soon as one side is NaN. *)
Definition flt (a b : float) : bool := SFltb a b.
Definition fgt (a b : float) : bool := SFltb b a.
Definition feq (a b : float) : bool := SFeqb a b.

Definition np_inf : float := S754_infinity false.
Definition np_neg_inf : float := S754_infinity true.
Definition fzero : float := S754_zero false.
(** The literal [0.1]: 0x1999999999999A * 2^-56. *)
Definition f0_1 : float := S754_finite false 7205759403792794 (-56).

Definition is_finite (x : float) : bool :=
  match x with
  | S754_zero _ | S754_finite _ _ _ => true
  | S754_infinity _ | S754_nan => false
  end.

(** A one-dimensional [np.ndarray] of floats. *)
Abbreviation vec := (list spec_float).
(** What a Python name bound to "an array or [None]" holds. *)
Abbreviation pyvec := (option (list spec_float)).

(** The value a loss function hands back: a bare scalar (a Python float or a
    NumPy scalar) or a one-dimensional array. *)
Inductive ndvalue :=
| Scalar (x : float)
| Array1 (a : vec).

(** Values that reach the constructor through [**kwargs]. *)
Inductive kwval :=
| KNone
| KStr (s : string)
| KNum (x : float).

Inductive exn :=
| TypeError
| IndexError
| ValueError
| AttributeError
| DuplicateIdentifierError
| UnknownIdentifierError
| CollaboratorError (who : string).

Inductive res (A : Type) :=
| Ok (a : A)
| Raise (e : exn).
Arguments Ok {A} a.
Arguments Raise {A} e.

#[global] Instance res_ret : MRet res := λ A a, Ok a.
#[global] Instance res_bind : MBind res := λ A B f r,
  match r with
  | Ok a => f a
  | Raise e => Raise e
  end.

(** [v + c] for a float [c]: NumPy broadcasts the scalar over an array. *)
Definition nd_add (v : ndvalue) (c : float) : ndvalue :=
  match v with
  | Scalar x => Scalar (fadd x c)
  | Array1 a => Array1 ((λ x, fadd x c) <$> a)
  end.

(** [v[0]]: a scalar is not subscriptable (TypeError for a Python float,
    IndexError for a NumPy scalar); an empty array has no element 0. *)
Definition getitem0 (v : ndvalue) : res float :=
  match v with
  | Scalar _ => Raise TypeError
  | Array1 [] => Raise IndexError
  | Array1 (x :: _) => Ok x
  end.

(** [self.regularization == "l2"]: only a string can be equal to a string. *)
Definition kw_eqb (v : kwval) (s : string) : bool :=
  match v with
  | KStr t => String.eqb t s
  | _ => false
  end.

(** [c * reg] where [c] came from the keyword arguments. *)
Definition kw_mul (c : kwval) (reg : float) : res float :=
  match c with
  | KNum x => Ok (fmul x reg)
  | _ => Raise TypeError
  end.

(** [range(n)] as the list it iterates over; empty when [n <= 0]. *)
Definition py_range (n : Z) : list Z := Z.of_nat <$> seq 0 (Z.to_nat n).

(** ** Numeric routines of NumPy used by the network

    These belong to an external library; the network only composes them. *)
Class NumPy := {
  np_linalg_norm : vec → Z → float;
  np_power : float → Z → float;
  np_mean : list float → float
}.

(** [np.linalg.norm(W, ord)] on a name that may hold [None]: NumPy rejects a
    zero-dimensional object array. *)
Definition linalg_norm `{NumPy} (W : pyvec) (ord : Z) : res float :=
  match W with
  | Some w => Ok (np_linalg_norm w ord)
  | None => Raise ValueError
  end.

(** ** WeightsParser *)

Record descriptor := {
  d_start : nat;
  d_count : nat;
  d_shape : list nat
}.

Record WeightsParser := {
  registry : list (string * descriptor);
  cursor : nat
}.

Definition find_descriptor (name : string) (reg : list (string * descriptor))
  : option descriptor :=
  snd <$> List.find (λ e, String.eqb (fst e) name) reg.

Definition shape_size (shape : list nat) : nat := foldr Nat.mul 1%nat shape.

(** Modelled from the spec: the class [WeightsParser] of [citk/layer.py] is
    not among the sources.  A fresh parser has no registration and its write
    cursor at 0. *)
Definition new_parser : WeightsParser := {| registry := []; cursor := 0 |}.

(** Modelled from the spec: [WeightsParser.add_weights] of [citk/layer.py].
    It appends a descriptor at the current end offset, fails with
    [DuplicateIdentifierError] when the identifier is already present, and
    advances the write cursor by the element count implied by the shape. *)
Definition add_weights (p : WeightsParser) (name : string) (shape : list nat)
  : res WeightsParser :=
  match find_descriptor name (registry p) with
  | Some _ => Raise DuplicateIdentifierError
  | None =>
      let d := {| d_start := cursor p; d_count := shape_size shape; d_shape := shape |} in
      Ok {| registry := registry p ++ [(name, d)];
            cursor := (cursor p + shape_size shape)%nat |}
  end.

(** Modelled from the spec: [WeightsParser.get] of [citk/layer.py].  It
    returns the sub-range of the vector at the stored offset, reshaped to the
    stored shape, and fails with [UnknownIdentifierError] when the identifier
    is absent.  [None] cannot be sliced, and a sub-range cut short by the end
    of the vector cannot be reshaped to the stored shape. *)
Definition get (p : WeightsParser) (vect : pyvec) (name : string) : res vec :=
  match find_descriptor name (registry p) with
  | None => Raise UnknownIdentifierError
  | Some d =>
      match vect with
      | None => Raise TypeError
      | Some v =>
          let slice := take (d_count d) (drop (d_start d) v) in
          if (length slice =? shape_size (d_shape d))%nat then Ok slice
          else Raise ValueError
      end
  end.

(** The sum of the registered slice sizes. *)
Definition registered_size (p : WeightsParser) : nat :=
  foldr (λ e acc, (d_count (snd e) + acc)%nat) 0%nat (registry p).

(** ** Heap of parameter arrays

    A reference is an index into the heap.  A reference outside the heap
    reads as [None]; [live_vector_ok] and the contract [respects_frame]
    below exclude it. *)
Abbreviation loc := nat.
Abbreviation heap_t := (list (list spec_float)).

Definition deref (h : heap_t) (r : option loc) : pyvec := r ≫= (h !!.).

Definition alloc (h : heap_t) (v : vec) : loc * heap_t := (length h, h ++ [v]).

(** A shape is a tuple of integers. *)
Abbreviation shape_t := (list Z).

Section Model.

(** Arrays of samples and activations, the state of the random generator
    used by initializers, and the private state of an optimiser. *)
Variables Data Rng OptSt : Type.
Context `{NumPy}.

(** The interface of a layer ([citk/layer.py] is not among the sources, so
    the methods are fields to be supplied): [build_weights_dict],
    [initializer] and [forward]; [number] is the attribute the network
    assigns, and [layer_str] is its [__str__], the identifier derived from
    the variant name and the position index. *)
Record BaseLayer := {
  number : option Z;
  build_weights_dict : shape_t → res (nat * shape_t);
  initializer : Rng → nat → vec * Rng;
  forward : Data → vec → res Data;
  layer_str : option Z → string
}.

Definition str (layer : BaseLayer) : string := layer_str layer (number layer).

Definition set_number (layer : BaseLayer) (num : Z) : BaseLayer :=
  {| number := Some num;
     build_weights_dict := build_weights_dict layer;
     initializer := initializer layer;
     forward := forward layer;
     layer_str := layer_str layer |}.

(** The signature of the bound method [self.loss]. *)
Abbreviation loss_fn := (option (list spec_float) → Data → Data → bool → res ndvalue).

(** The interface of an optimiser ([citk/optimisers.py] is not among the
    sources, so [apply] is a field to be supplied).
    [apply(loss, X, y, W_vect, verbose)] returns
    [(stop, new_vector, batch_loss)] or raises; it may update the
    optimiser's own state and the arrays it can reach. *)
Record BaseOptimizer := {
  opt_state : OptSt;
  apply : OptSt → heap_t → loss_fn → Data → Data → option loc → bool →
          res (bool * loc * float) * OptSt * heap_t
}.

Record FFN := {
  parser : WeightsParser;
  regularization : kwval;
  reg_coef : kwval;
  layer_specs : list BaseLayer;
  _loss : Data → Data → res ndvalue;
  W_vect : option loc;
  _optimiser : option BaseOptimizer
}.

(** *** [FFN.__init__] *)

Fixpoint init_layers (num : Z) (layers : list BaseLayer) (cur_shape : shape_t)
    (p : WeightsParser) (W : vec) (g : Rng)
  : res (list BaseLayer * WeightsParser * vec) * Rng :=
  match layers with
  | [] => (Ok ([], p, W), g)
  | layer :: rest =>
      let layer := set_number layer num in
      match build_weights_dict layer cur_shape with
      | Raise e => (Raise e, g)
      | Ok (N_weights, cur_shape) =>
          match add_weights p (str layer) [N_weights] with
          | Raise e => (Raise e, g)
          | Ok p =>
              let '(w, g) := initializer layer g N_weights in
              let W := W ++ w in
              match init_layers (num + 1) rest cur_shape p W g with
              | (Ok (rest, p, W), g) => (Ok (layer :: rest, p, W), g)
              | (Raise e, g) => (Raise e, g)
              end
          end
      end
  end.

Definition __init__ (input_shape : shape_t) (layer_specs : list BaseLayer)
    (loss : Data → Data → res ndvalue) (kwargs : gmap string kwval)
    (g : Rng) (h : heap_t)
  : res FFN * Rng * heap_t :=
  let parser := new_parser in
  let regularization := default (KStr "l2") (kwargs !! "regularization") in
  let reg_coef := default (KNum fzero) (kwargs !! "reg_coef") in
  match init_layers 0 layer_specs input_shape parser [] g with
  | (Raise e, g) => (Raise e, g, h)
  | (Ok (layers, parser, W), g) =>
      let '(r, h) := alloc h (fmul f0_1 <$> W) in
      (Ok {| parser := parser;
             regularization := regularization;
             reg_coef := reg_coef;
             layer_specs := layers;
             _loss := loss;
             W_vect := Some r;
             _optimiser := None |}, g, h)
  end.

(** *** [FFN._predict] and [FFN.loss] *)

Fixpoint predict_layers (p : WeightsParser) (W : pyvec) (layers : list BaseLayer)
    (cur_units : Data) : res Data :=
  match layers with
  | [] => Ok cur_units
  | layer :: rest =>
      cur_weights ← get p W (str layer);
      cur_units ← forward layer cur_units cur_weights;
      predict_layers p W rest cur_units
  end.

Definition _predict (self : FFN) (W : pyvec) (inputs : Data) : res Data :=
  predict_layers (parser self) W (layer_specs self) inputs.

Definition loss (self : FFN) (W : pyvec) (X y : Data) (omit_reg : bool)
  : res ndvalue :=
  reg ← (if kw_eqb (regularization self) "l2" && negb omit_reg then
           n ← linalg_norm W 2; Ok (np_power n 2)
         else if kw_eqb (regularization self) "l1" && negb omit_reg then
           linalg_norm W 1
         else Ok fzero);
  pred ← _predict self W X;
  base ← _loss self pred y;
  pen ← kw_mul (reg_coef self) reg;
  Ok (nd_add base pen).

(** ** State and exceptions

    [self] and the heap are threaded through every method that mutates
    them; an exception leaves the state as it was when it was raised. *)

Record State := {
  self : FFN;
  heap : heap_t
}.

Definition M (A : Type) : Type := State → res A * State.

#[global] Instance M_ret : MRet M := λ A a s, (Ok a, s).
#[global] Instance M_bind : MBind M := λ A B f m s,
  match m s with
  | (Ok a, s') => f a s'
  | (Raise e, s') => (Raise e, s')
  end.

Definition lift {A} (r : res A) : M A := λ s, (r, s).

(** [self.W_vect = r] *)
Definition set_W_vect (r : option loc) : M unit := λ s,
  (Ok tt,
   {| self := {| parser := parser (self s);
                 regularization := regularization (self s);
                 reg_coef := reg_coef (self s);
                 layer_specs := layer_specs (self s);
                 _loss := _loss (self s);
                 W_vect := r;
                 _optimiser := _optimiser (self s) |};
      heap := heap s |}).

(** [self._optimiser = o] *)
Definition set_optimiser (o : BaseOptimizer) : FFN → FFN := λ n,
  {| parser := parser n;
     regularization := regularization n;
     reg_coef := reg_coef n;
     layer_specs := layer_specs n;
     _loss := _loss n;
     W_vect := W_vect n;
     _optimiser := Some o |}.

(** [deepcopy(self.W_vect)]: a fresh array with the same contents; the copy
    of [None] is [None]. *)
Definition deepcopy_W_vect : M (option loc) := λ s,
  match deref (heap s) (W_vect (self s)) with
  | None => (Ok None, s)
  | Some v =>
      let '(r, h) := alloc (heap s) v in
      (Ok (Some r), {| self := self s; heap := h |})
  end.

(** [self._optimiser.apply(self.loss, X, y, self.W_vect, verbose=verbose)]:
    the optimiser object reached through [self] carries its new state
    afterwards. *)
Definition optimiser_apply (X y : Data) (verbose : bool)
  : M (bool * loc * float) := λ s,
  match _optimiser (self s) with
  | None => (Raise AttributeError, s)
  | Some o =>
      let '(r, st, h) :=
        apply o (opt_state o) (heap s) (loss (self s)) X y (W_vect (self s)) verbose in
      (r, {| self := set_optimiser {| opt_state := st; apply := apply o |} (self s);
             heap := h |})
  end.

(** *** [FFN.predict] and [FFN.eval] *)

Definition predict (inputs : Data) : M Data := λ s,
  (_predict (self s) (deref (heap s) (W_vect (self s))) inputs, s).

Definition eval (input output : Data) : M ndvalue := λ s,
  (loss (self s) (deref (heap s) (W_vect (self s))) input output true, s).

(** *** [FFN.fit] *)

(** [history = dict(epoch=[], train_loss=[], validation_loss=[])] *)
Record History := {
  epoch : list Z;
  train_loss : list float;
  validation_loss : list float
}.

(** The local variables of [fit] that live across loop iterations. *)
Record Locals := {
  inst : option loc;
  best_inst : option loc;
  best_score : float;
  best_epoch : Z;
  history : History;
  tr_accum_loss : list float;
  tr_loss : float;
  to_stop : bool
}.

(** [gen_batch] of [citk/utils.py], not among the sources: the finite
    sequence of [(X, y)] batches it yields for a sample and a batch size. *)
Variable gen_batch : Data * Data → Z → list (Data * Data).

Section Fit.

Variables train_sample validation_sample : Data * Data.
Variable batch_size : Z.
Variables verbose minimize_metric : bool.

(** [tr_accum_loss = []; tr_loss = np.inf; to_stop = False] *)
Definition start_epoch (L : Locals) : Locals :=
  {| inst := inst L; best_inst := best_inst L; best_score := best_score L;
     best_epoch := best_epoch L; history := history L;
     tr_accum_loss := []; tr_loss := np_inf; to_stop := false |}.

(** The three assignments of one batch: the tuple returned by the optimiser
    and the append to [tr_accum_loss]. *)
Definition after_batch (L : Locals) (stop : bool) (new_inst : loc) (l : float)
  : Locals :=
  {| inst := Some new_inst; best_inst := best_inst L; best_score := best_score L;
     best_epoch := best_epoch L; history := history L;
     tr_accum_loss := tr_accum_loss L ++ [l]; tr_loss := l; to_stop := stop |}.

Fixpoint batch_loop (batches : list (Data * Data)) (L : Locals) : M Locals :=
  match batches with
  | [] => mret L
  | (X, y) :: rest =>
      '(stop, new_inst, l) ← optimiser_apply X y verbose;
      _ ← set_W_vect (Some new_inst);
      batch_loop rest (after_batch L stop new_inst l)
  end.

Definition set_history (L : Locals) (hist : History) : Locals :=
  {| inst := inst L; best_inst := best_inst L; best_score := best_score L;
     best_epoch := best_epoch L; history := hist;
     tr_accum_loss := tr_accum_loss L; tr_loss := tr_loss L; to_stop := to_stop L |}.

(** [best_score = val_loss; best_inst = ...; best_epoch = i] *)
Definition set_best (L : Locals) (hist : History) (val_loss : float)
    (copy : option loc) (i : Z) : Locals :=
  {| inst := inst L; best_inst := copy; best_score := val_loss;
     best_epoch := i; history := hist;
     tr_accum_loss := tr_accum_loss L; tr_loss := tr_loss L; to_stop := to_stop L |}.

(** The body of the epoch loop up to, but not including, the test of
    [to_stop].  The [print] calls only write to the console and are left
    out. *)
Definition epoch_body (i : Z) (L : Locals) : M Locals :=
  L ← batch_loop (gen_batch train_sample batch_size) (start_epoch L);
  let mean := np_mean (tr_accum_loss L) in
  let hist := {| epoch := epoch (history L) ++ [i];
                 train_loss := train_loss (history L) ++ [mean];
                 validation_loss := validation_loss (history L) |} in
  v ← eval validation_sample.1 validation_sample.2;
  val_loss ← lift (getitem0 v);
  let hist := {| epoch := epoch hist;
                 train_loss := train_loss hist;
                 validation_loss := validation_loss hist ++ [val_loss] |} in
  if minimize_metric && flt val_loss (best_score L) then
    copy ← deepcopy_W_vect;
    mret (set_best L hist val_loss copy i)
  else if negb minimize_metric && fgt val_loss (best_score L) then
    copy ← deepcopy_W_vect;
    mret (set_best L hist val_loss copy i)
  else
    mret (set_history L hist).

(** [for i in ...: body; if to_stop: break] *)
Fixpoint epoch_loop (indices : list Z) (L : Locals) : M Locals :=
  match indices with
  | [] => mret L
  | i :: rest =>
      L ← epoch_body i L;
      if to_stop L then mret L else epoch_loop rest L
  end.

End Fit.

(** [self._optimiser = optimiser] *)
Definition assign_optimiser (o : BaseOptimizer) : M unit := λ s,
  (Ok tt, {| self := set_optimiser o (self s); heap := heap s |}).

(** The values of the locals before the first epoch. *)
Definition initial_locals (minimize_metric : bool) : Locals :=
  {| inst := None; best_inst := None;
     best_score := if minimize_metric then np_inf else np_neg_inf;
     best_epoch := 0;
     history := {| epoch := []; train_loss := []; validation_loss := [] |};
     tr_accum_loss := []; tr_loss := np_inf; to_stop := false |}.

(** [verbose if verbose else False] *)
Definition effective_verbose (verbose : option bool) : bool :=
  match verbose with
  | Some true => true
  | _ => false
  end.

(** [epochs if epochs else 1]: [None] and [0] are both falsy. *)
Definition effective_epochs (epochs : option Z) : Z :=
  match epochs with
  | Some n => if n =? 0 then 1 else n
  | None => 1
  end.

(** [fit] up to the exit of the epoch loop, with the locals it leaves. *)
Definition fit_loop (optimiser : BaseOptimizer)
    (train_sample validation_sample : Data * Data) (batch_size : Z)
    (epochs : option Z) (verbose : option bool) (minimize_metric : bool)
  : M Locals :=
  _ ← assign_optimiser optimiser;
  let verbose := effective_verbose verbose in
  let epochs := effective_epochs epochs in
  epoch_loop train_sample validation_sample batch_size verbose minimize_metric
    (py_range epochs) (initial_locals minimize_metric).

(** [fit]; the returned pair [(self, history)] is the final state together
    with the history. *)
Definition fit (optimiser : BaseOptimizer)
    (train_sample validation_sample : Data * Data) (batch_size : Z)
    (epochs : option Z) (verbose : option bool)
    (load_best_model_on_end minimize_metric : bool)
  : M History :=
  L ← fit_loop optimiser train_sample validation_sample batch_size epochs
        verbose minimize_metric;
  _ ← (if load_best_model_on_end then set_W_vect (best_inst L) else mret tt);
  mret (history L).

End Model.

Arguments number {Data Rng}.
Arguments build_weights_dict {Data Rng}.
Arguments initializer {Data Rng}.
Arguments forward {Data Rng}.
Arguments layer_str {Data Rng}.
Arguments opt_state {Data OptSt}.
Arguments apply {Data OptSt}.
Arguments parser {Data Rng OptSt}.
Arguments regularization {Data Rng OptSt}.
Arguments reg_coef {Data Rng OptSt}.
Arguments layer_specs {Data Rng OptSt}.
Arguments _loss {Data Rng OptSt}.
Arguments W_vect {Data Rng OptSt}.
Arguments _optimiser {Data Rng OptSt}.
Arguments self {Data Rng OptSt}.
Arguments heap {Data Rng OptSt}.
Arguments inst : clear implicits.
Arguments loss {Data Rng OptSt _}.
Arguments _predict {Data Rng OptSt}.
Arguments eval {Data Rng OptSt _}.
Arguments predict {Data Rng OptSt}.
Arguments __init__ {Data Rng OptSt}.
Arguments init_layers {Data Rng}.
Arguments fit {Data Rng OptSt _}.
Arguments fit_loop {Data Rng OptSt _}.
Arguments epoch_loop {Data Rng OptSt _}.
Arguments epoch_body {Data Rng OptSt _}.
Arguments batch_loop {Data Rng OptSt _}.
Arguments optimiser_apply {Data Rng OptSt _}.
Arguments deepcopy_W_vect {Data Rng OptSt}.
Arguments set_W_vect {Data Rng OptSt}.
Arguments assign_optimiser {Data Rng OptSt}.
Arguments set_optimiser {Data Rng OptSt}.
Arguments str {Data Rng}.
Arguments set_number {Data Rng}.
Arguments lift {Data Rng OptSt A}.

(** ** Small collaborators on which the model can be run *)

Module Stub.

(** Left-to-right reference versions of the NumPy routines. *)
Definition fsum (l : list float) : float := foldl fadd fzero l.

Definition of_nat (n : nat) : float := binary_normalize 53 1024 (Z.of_nat n) 0 false.

#[global] Instance numpy : NumPy := {|
  np_linalg_norm w ord :=
    if ord =? 1 then fsum (SFabs <$> w)
    else SFsqrt 53 1024 (fsum ((λ x, fmul x x) <$> w));
  np_power x n := Z.iter n (fmul x) (of_nat 1);
  np_mean l := SFdiv 53 1024 (fsum l) (of_nat (length l))
|}.

Definition half : float := binary_normalize 53 1024 1 (-1) false.
Definition one : float := of_nat 1.
Definition two : float := of_nat 2.
Definition three : float := of_nat 3.

(** A layer with [n] parameters that keeps the shape and outputs its own
    weights; its initial values are all 1. *)
Definition layer (name : string) (n : nat) : BaseLayer vec nat := {|
  number := None;
  build_weights_dict shape := Ok (n, shape);
  initializer g k := (replicate k one, S g);
  forward _ w := Ok w;
  layer_str num :=
    match num with
    | Some 0 => name +:+ "_0"
    | Some 1 => name +:+ "_1"
    | _ => name
    end
|}.

(** Loss collaborators: the first prediction as a one-element array, or as a
    bare scalar. *)
Definition loss_array (pred y : vec) : res ndvalue := Ok (Array1 (take 1 pred)).
Definition loss_scalar (pred y : vec) : res ndvalue := Ok (Scalar (default fzero (head pred))).

(** An optimiser that replays a script: each call returns the next
    [(stop, vector, batch_loss)].  [fresh] allocates the vector; otherwise the
    live array is overwritten in place and returned. *)
Abbreviation script := (list (bool * list spec_float * spec_float)).

Definition scripted_apply (fresh : bool) (st : script) (h : heap_t)
    (lossf : option (list spec_float) → vec → vec → bool → res ndvalue)
    (X y : vec) (W : option loc) (verbose : bool)
  : res (bool * loc * float) * script * heap_t :=
  match st with
  | [] => (Raise (CollaboratorError "optimiser"), st, h)
  | (stop, v, l) :: rest =>
      if fresh then (Ok (stop, length h, l), rest, h ++ [v])
      else
        match W with
        | Some w => (Ok (stop, w, l), rest, <[w:=v]> h)
        | None => (Raise (CollaboratorError "optimiser"), st, h)
        end
  end.

Definition scripted (fresh : bool) (st : script) : BaseOptimizer vec script :=
  {| opt_state := st; apply := scripted_apply fresh |}.

(** Two batches per epoch, whatever the sample. *)
Definition two_batches (sample : vec * vec) (batch_size : Z) : list (vec * vec) :=
  [sample; sample].
Definition one_batch (sample : vec * vec) (batch_size : Z) : list (vec * vec) :=
  [sample].

Definition sample : vec * vec := ([one], [one]).

(** The network built from one two-parameter layer, with default keyword
    arguments, in an empty heap, and the state it is in after
    construction. *)
Definition net0 (lossf : vec → vec → res ndvalue) : FFN vec nat script := {|
  parser :=
    {| registry := [("Dense_0", {| d_start := 0; d_count := 2; d_shape := [2%nat] |})];
       cursor := 2 |};
  regularization := KStr "l2";
  reg_coef := KNum fzero;
  layer_specs := [set_number (layer "Dense" 2) 0];
  _loss := lossf;
  W_vect := Some 0%nat;
  _optimiser := None
|}.

Definition start (lossf : vec → vec → res ndvalue) : State vec nat script :=
  {| self := net0 lossf; heap := [[fmul f0_1 one; fmul f0_1 one]] |}.

(** Three optimisers replaying a script.  [stop_early] signals stop on the
    first of two batches only; [stop_last] on the last one; [descending]
    yields validation losses 3, 2, 2, 1 with one batch per epoch. *)
Definition stop_early : BaseOptimizer vec script :=
  scripted true [(true, [three; one], one); (false, [two; one], one);
                 (false, [one; one], one); (false, [half; one], one)].

Definition stop_last : BaseOptimizer vec script :=
  scripted true [(false, [three; one], one); (true, [two; one], one)].

Definition descending : BaseOptimizer vec script :=
  scripted true [(false, [three; one], one); (false, [two; one], one);
                 (false, [two; one], one); (false, [one; one], one)].

(** One step to weights whose validation loss is [+inf]. *)
Definition diverging : BaseOptimizer vec script :=
  scripted true [(false, [np_inf; one], one)].

(** An optimiser that overwrites the live array in place: first with weights
    of validation loss 2, then with weights of validation loss 3. *)
Definition in_place : BaseOptimizer vec script :=
  scripted false [(false, [two; one], one); (false, [three; one], one)].

(** The state in which the epoch loop of [fit] starts. *)
Definition entered (lossf : vec → vec → res ndvalue) (o : BaseOptimizer vec script)
  : State vec nat script :=
  (assign_optimiser o (start lossf)).2.

End Stub.

(** Further collaborators: layers that change or reject a shape, an
    optimiser that never stops, a sample without batches. *)
Module StubMore.

Import Stub.

(** A parameterless layer that turns a shape [(n,)] into [(n, n)]. *)
Definition widen : BaseLayer vec nat := {|
  number := None;
  build_weights_dict shape :=
    match shape with
    | [n] => Ok (0%nat, [n; n])
    | _ => Raise (CollaboratorError "IncompatibleShapeError")
    end;
  initializer g k := (replicate k one, S g);
  forward x _ := Ok x;
  layer_str num := "Widen"
|}.

(** A layer that accepts one-dimensional shapes only. *)
Definition flat_only : BaseLayer vec nat := {|
  number := None;
  build_weights_dict shape :=
    match shape with
    | [n] => Ok (Z.to_nat n, [n])
    | _ => Raise (CollaboratorError "IncompatibleShapeError")
    end;
  initializer g k := (replicate k one, S g);
  forward _ w := Ok w;
  layer_str num := "Flat"
|}.

(** An optimiser that returns a copy of the live vector, a batch loss of 1
    and never a stop signal. *)
Definition steady_apply (st : script) (h : heap_t)
    (lossf : option (list spec_float) → vec → vec → bool → res ndvalue)
    (X y : vec) (W : option loc) (verbose : bool)
  : res (bool * loc * float) * script * heap_t :=
  (Ok (false, length h, one), st, h ++ [default [] (deref h W)]).

Definition steady : BaseOptimizer vec script :=
  {| opt_state := []; apply := steady_apply |}.

Definition no_batches (sample : vec * vec) (batch_size : Z) : list (vec * vec) := [].

(** The network of [net0] with a string as [reg_coef]. *)
Definition kwargs_text : gmap string kwval := {["reg_coef" := KStr "0.1"]}.

End StubMore.

(** ** Specification-level definitions *)

(** The configured direction of improvement: [new < old] when minimizing,
    [new > old] when maximizing. *)
Definition improves (minimize_metric : bool) (new old : float) : bool :=
  if minimize_metric then flt new old else fgt new old.


Section Specification.

Context {Data Rng OptSt : Type} `{NumPy}.
Implicit Types (self : FFN Data Rng OptSt) (s : State Data Rng OptSt).
Implicit Types (o : BaseOptimizer Data OptSt) (L : Locals).

(** The penalty as the specification words it: the squared L2 norm, the L1
    norm, or zero, selected by the regularization kind. *)
Definition penalty (kind : kwval) (W : vec) : float :=
  if kw_eqb kind "l2" then np_power (np_linalg_norm W 2) 2
  else if kw_eqb kind "l1" then np_linalg_norm W 1
  else fzero.

(** [base_loss(_predict(W, X), y) + reg_coef * penalty(W)], with the penalty
    forced to zero by [omit_reg]. *)
Definition loss_spec (self : FFN Data Rng OptSt) (W : vec) (X y : Data)
    (omit_reg : bool) : res ndvalue :=
  pred ← _predict self (Some W) X;
  base ← _loss self pred y;
  pen ← kw_mul (reg_coef self)
          (if omit_reg then fzero else penalty (regularization self) W);
  Ok (nd_add base pen).

(** The fields of the network other than [W_vect] and [_optimiser]. *)
Definition same_config self self' : Prop :=
  parser self' = parser self
  ∧ layer_specs self' = layer_specs self
  ∧ _loss self' = _loss self
  ∧ regularization self' = regularization self
  ∧ reg_coef self' = reg_coef self.

(** "Nothing but [W_vect] changed": the claim that [fit] leaves every
    other field, [_optimiser] included, as it found it. *)
Definition only_W_vect_mutated s s' : Prop :=
  same_config (self s) (self s') ∧ _optimiser (self s') = _optimiser (self s).

(** [self._optimiser] is bound to an object of the class of [o]. *)
Definition optimiser_bound o s : Prop :=
  ∃ o', _optimiser (self s) = Some o' ∧ apply o' = apply o.

(** What every step of [fit] guarantees between the state it starts from
    and the state it leaves, whether it returns or raises. *)
Definition frame o s s' : Prop :=
  same_config (self s) (self s') ∧ (optimiser_bound o s → optimiser_bound o s').

Definition framed {A} o (m : M Data Rng OptSt A) : Prop := ∀ s, frame o s (m s).2.

(** *** The contract of an optimiser on the heap

    [footprint st] is the set of arrays the optimiser holds on to in state
    [st].  A call may allocate, may overwrite the arrays of its footprint
    and the array it is handed, and leaves every other array alone; the
    array it returns, and those it holds on to afterwards, are new or were
    already within its reach. *)
Record respects_frame (footprint : OptSt → gset loc) o : Prop := {
  apply_frame : ∀ st h lossf X y W verbose r st' h',
    apply o st h lossf X y W verbose = (r, st', h') →
    (∀ l, l ∈ footprint st → (l < length h)%nat) →
    (∀ w, W = Some w → (w < length h)%nat) →
    (length h ≤ length h')%nat
    ∧ (∀ l, (l < length h)%nat → l ∉ footprint st → W ≠ Some l →
         h' !! l = h !! l)
    ∧ (∀ l, l ∈ footprint st' →
         (l < length h')%nat
         ∧ ((l < length h)%nat → l ∈ footprint st ∨ W = Some l))
    ∧ (∀ stop new_inst batch_loss, r = Ok (stop, new_inst, batch_loss) →
         (new_inst < length h')%nat
         ∧ ((new_inst < length h)%nat →
            new_inst ∈ footprint st ∨ W = Some new_inst))
}.

(** The live parameter vector is an array of the heap. *)
Definition live_vector_ok s : Prop :=
  ∃ w, W_vect (self s) = Some w ∧ (w < length (heap s))%nat.

(** What holds of the best snapshot between any two steps of [fit]; [n0] is
    the size of the heap when [fit] was entered. *)
Definition snapshot_inv (footprint : OptSt → gset loc) o
    (validation_sample : Data * Data) (minimize_metric : bool) (n0 : nat)
    L s : Prop :=
  live_vector_ok s
  ∧ (n0 ≤ length (heap s))%nat
  ∧ (∃ o', _optimiser (self s) = Some o' ∧ apply o' = apply o
           ∧ ∀ l, l ∈ footprint (opt_state o') → (l < length (heap s))%nat)
  ∧ (∀ v, v ∈ validation_loss (history L) →
          improves minimize_metric v (best_score L) = false)
  ∧ match best_inst L with
    | None => best_score L = (if minimize_metric then np_inf else np_neg_inf)
    | Some b =>
        (n0 ≤ b < length (heap s))%nat
        ∧ W_vect (self s) ≠ Some b
        ∧ (∀ o', _optimiser (self s) = Some o' → b ∉ footprint (opt_state o'))
        ∧ best_score L ∈ validation_loss (history L)
        ∧ ∃ w arr,
            heap s !! b = Some w
            ∧ loss (self s) (Some w) validation_sample.1 validation_sample.2 true
              = Ok arr
            ∧ getitem0 arr = Ok (best_score L)
    end.

End Specification.

(** ** [FFN.frac_err] *)

Section FracErr.

Context {Data Rng OptSt : Type} `{NumPy}.

(** NumPy routines that only [frac_err] uses: [np.argmax(a, axis)], which
    may reject its argument, and [np.mean(a != b)] on two index arrays. *)
Variable np_argmax : Data → Z → res (list Z).
Variable np_mean_ne : list Z → list Z → float.
(** A parameter array, or [None], handed over where samples are expected. *)
Variable array_as_data : option (list spec_float) → Data.

(** A positional argument of a method call: the value of [self.W_vect] or an
    array of samples. *)
Inductive pyarg :=
| ArgRef (r : option loc)
| ArgData (d : Data).

(** The call of [self.predict] on a list of positional arguments.
    [predict(self, inputs)] has one
    positional parameter besides [self]; Python raises [TypeError] for any
    other number of arguments, before the body is entered. *)
Definition predict_call (args : list pyarg) : M Data Rng OptSt Data :=
  match args with
  | [ArgData inputs] => predict inputs
  | [ArgRef r] => λ s, predict (array_as_data (deref (heap s) r)) s
  | _ => lift (Raise TypeError)
  end.

(** [np.mean(np.argmax(T, axis=1)
             != np.argmax(self.predict(self.W_vect, X), axis=1))]:
    the left operand of [!=] is evaluated first. *)
Definition frac_err (X T : Data) : M Data Rng OptSt float :=
  expected ← lift (np_argmax T 1);
  w ← (λ s, (Ok (W_vect (self s)), s));
  out ← predict_call [ArgRef w; ArgData X];
  predicted ← lift (np_argmax out 1);
  mret (np_mean_ne expected predicted).

End FracErr.

(** ** Further specification-level definitions *)

Section MoreSpecification.

Context {Data Rng OptSt : Type} `{NumPy}.

(** The shape that leaves a sequence of layers fed with [shape]: each layer
    is asked with the output shape of the one before it. *)
Fixpoint out_shape (layers : list (BaseLayer Data Rng)) (shape : shape_t)
  : res shape_t :=
  match layers with
  | [] => Ok shape
  | layer :: rest =>
      match build_weights_dict layer shape with
      | Ok (_, shape) => out_shape rest shape
      | Raise e => Raise e
      end
  end.


(** An optimiser that never returns a true stop flag. *)
Definition never_stops (o : BaseOptimizer Data OptSt) : Prop :=
  ∀ st h lossf X y W verbose stop new_inst l st' h',
    apply o st h lossf X y W verbose = (Ok (stop, new_inst, l), st', h') →
    stop = false.

(** A float that is a zero of either sign. *)
Definition is_zero (x : float) : bool :=
  match x with
  | S754_zero _ => true
  | _ => false
  end.

(** [x] with the regularization term of an evaluation added: the same
    float, or a zero for a zero. *)
Definition same_up_to_zero_sign (x x' : float) : Prop :=
  x' = x ∨ (is_zero x = true ∧ is_zero x' = true).

End MoreSpecification.

(** ** Properties of [loss], [eval] and the constructor *)

Section LossProperties.

Context {Data Rng OptSt : Type} `{NumPy}.
Implicit Types (self : FFN Data Rng OptSt) (s : State Data Rng OptSt).

(** C1: for every parameter vector [W], inputs, targets and flag [omit_reg],
    [loss] equals the base loss of the prediction plus [reg_coef] times the
    penalty: the squared L2 norm for kind "l2", the L1 norm for "l1", zero
    for any other kind, and zero whatever the kind when [omit_reg] is set. *)
Theorem loss_is_base_loss_plus_penalty self (W : vec) (X y : Data) (omit_reg : bool) :
  loss self (Some W) X y omit_reg = loss_spec self W X y omit_reg.
Proof.
  unfold loss, loss_spec, penalty.
  destruct omit_reg;
    destruct (kw_eqb (regularization self) "l2");
    destruct (kw_eqb (regularization self) "l1"); reflexivity.
Qed.

(** C7: [eval(x, y)] is [loss(W, x, y, omit_reg=True)] at the live parameter
    vector, and such a loss is the base loss plus [reg_coef * 0.0] whatever
    the configured regularization kind. *)
Theorem eval_is_loss_without_regularization s (x y : Data) :
  eval x y s = (loss (self s) (deref (heap s) (W_vect (self s))) x y true, s)
  ∧ ∀ W : pyvec,
      loss (self s) W x y true =
        (pred ← _predict (self s) W x;
         base ← _loss (self s) pred y;
         pen ← kw_mul (reg_coef (self s)) fzero;
         Ok (nd_add base pen)).
Proof.
  split; [reflexivity|].
  intros W. unfold loss.
  by rewrite !andb_false_r.
Qed.

(** C10: a network constructed without the [regularization] keyword has kind
    "l2", so its loss with [omit_reg] false carries the squared-L2 penalty
    scaled by [reg_coef]. *)
Theorem default_regularization_is_l2 (input_shape : shape_t)
    (layers : list (BaseLayer Data Rng)) (lossf : Data → Data → res ndvalue)
    (kwargs : gmap string kwval) (g g' : Rng) (h h' : heap_t) self :
  kwargs !! "regularization" = None →
  __init__ input_shape layers lossf kwargs g h = (Ok self, g', h') →
  regularization self = KStr "l2"
  ∧ reg_coef self = default (KNum fzero) (kwargs !! "reg_coef")
  ∧ ∀ (W : vec) (X y : Data),
      loss self (Some W) X y false =
        (pred ← _predict self (Some W) X;
         base ← lossf pred y;
         pen ← kw_mul (reg_coef self) (np_power (np_linalg_norm W 2) 2);
         Ok (nd_add base pen)).
Proof.
  intros Hkw Hinit. unfold __init__ in Hinit. rewrite Hkw in Hinit.
  destruct (init_layers 0 layers input_shape new_parser [] g) as [[[[ls p] W]|e] g1];
    simplify_eq/=.
  split_and!; [done..|].
  intros W0 X y. reflexivity.
Qed.

Lemma registered_size_snoc (reg : list (string * descriptor)) name d c :
  registered_size {| registry := reg ++ [(name, d)]; cursor := c |}
  = (registered_size {| registry := reg; cursor := c |} + d_count d)%nat.
Proof.
  unfold registered_size; simpl. induction reg as [|e reg IH]; simpl; lia.
Qed.

Lemma add_weights_layout p name (n : nat) p' :
  add_weights p name [n] = Ok p' →
  registered_size p' = (registered_size p + n)%nat
  ∧ cursor p' = (cursor p + n)%nat.
Proof.
  unfold add_weights. destruct (find_descriptor name (registry p)); [done|].
  intros [= <-]. rewrite registered_size_snoc. simpl.
  unfold registered_size. simpl. lia.
Qed.

Lemma init_layers_layout (layers : list (BaseLayer Data Rng)) :
  ∀ num shape p W g layers' p' W' g',
    (∀ layer, layer ∈ layers → ∀ g n, length (initializer layer g n).1 = n) →
    init_layers num layers shape p W g = (Ok (layers', p', W'), g') →
    (length W' + registered_size p = length W + registered_size p')%nat
    ∧ (cursor p' + registered_size p = cursor p + registered_size p')%nat.
Proof.
  induction layers as [|layer rest IH]; intros num shape p W g layers' p' W' g' Hinit Hrun.
  - simpl in Hrun. by simplify_eq.
  - simpl in Hrun.
    destruct (build_weights_dict layer shape) as [[n shape1]|e]; [|done].
    destruct (add_weights p _ [n]) as [p1|e] eqn:Hadd; [|done].
    destruct (initializer layer g n) as [w g1] eqn:Hw.
    destruct (init_layers (num + 1) rest shape1 p1 (W ++ w) g1)
      as [[[[ls p2] W2]|e] g2] eqn:Hrest; [|done].
    simplify_eq.
    apply add_weights_layout in Hadd as [Hsz Hcur].
    apply IH in Hrest as [HW Hc]; [|intros; apply Hinit; by right].
    assert (length w = n) as Hlen.
    { specialize (Hinit layer ltac:(left) g n). by rewrite Hw in Hinit. }
    rewrite length_app in HW. lia.
Qed.

(** C5: right after a successful construction the flat parameter vector is as
    long as the sum of the parameter counts registered in the parser, which
    is also where the parser's write cursor stands, provided every layer's
    initializer returns exactly the number of values it is asked for. *)
Theorem layout_invariant (input_shape : shape_t)
    (layers : list (BaseLayer Data Rng)) (lossf : Data → Data → res ndvalue)
    (kwargs : gmap string kwval) (g g' : Rng) (h h' : heap_t) self :
  (∀ layer, layer ∈ layers → ∀ g n, length (initializer layer g n).1 = n) →
  __init__ input_shape layers lossf kwargs g h = (Ok self, g', h') →
  ∃ w : vec,
    deref h' (W_vect self) = Some w
    ∧ length w = registered_size (parser self)
    ∧ registered_size (parser self) = cursor (parser self).
Proof.
  intros Hinit Hrun. unfold __init__ in Hrun.
  destruct (init_layers 0 layers input_shape new_parser [] g)
    as [[[[ls p] W]|e] g1] eqn:Hlayers; simplify_eq/=.
  apply init_layers_layout in Hlayers as [HW Hc]; [|done].
  exists (fmul f0_1 <$> W). split_and!.
  - by rewrite list_lookup_middle.
  - rewrite length_fmap. simpl in *. unfold registered_size at 1 in HW. simpl in HW. lia.
  - simpl in *. unfold registered_size at 1 in Hc. simpl in Hc. lia.
Qed.

End LossProperties.

(** ** The order on floats *)

Ltac float_cases :=
  repeat match goal with
         | x : spec_float |- _ => destruct x
         | b : bool |- _ => destruct b
         end;
  simpl; try done.

Ltac compare_cases :=
  change (Pos.compare_cont Eq) with Pos.compare in *;
  repeat match goal with
         | |- context [?a ?= ?b] =>
             destruct (Z.compare_spec a b); simpl in *; try done; subst
         | H : context [?a ?= ?b] |- _ =>
             destruct (Z.compare_spec a b); simpl in *; try done; subst
         | |- context [(?a ?= ?b)%positive] =>
             destruct (Pos.compare_spec a b); simpl in *; try done; subst
         | H : context [(?a ?= ?b)%positive] |- _ =>
             destruct (Pos.compare_spec a b); simpl in *; try done; subst
         end; try lia.

Lemma flt_irrefl x : flt x x = false.
Proof. unfold flt, SFltb. float_cases; compare_cases. Qed.

Lemma flt_asym x y : flt x y = true → flt y x = false.
Proof. unfold flt, SFltb. float_cases; compare_cases. Qed.

Lemma flt_trans x y z : flt x y = true → flt y z = true → flt x z = true.
Proof. unfold flt, SFltb. float_cases; compare_cases. Qed.

Lemma feq_not_flt x y : feq x y = true → flt x y = false ∧ flt y x = false.
Proof. unfold feq, flt, SFeqb, SFltb. float_cases; compare_cases. Qed.

Lemma finite_lt_inf x : is_finite x = true → flt x np_inf = true.
Proof. unfold flt, SFltb, np_inf. by float_cases. Qed.

Lemma finite_gt_neg_inf x : is_finite x = true → fgt x np_neg_inf = true.
Proof. unfold fgt, SFltb, np_neg_inf. by float_cases. Qed.

(** ** Properties of [fit] *)

Lemma improves_irrefl mm x : improves mm x x = false.
Proof. destruct mm; apply flt_irrefl. Qed.

Lemma improves_asym mm x y : improves mm x y = true → improves mm y x = false.
Proof. destruct mm; apply flt_asym. Qed.

Lemma improves_trans mm x y z :
  improves mm x y = true → improves mm y z = true → improves mm x z = true.
Proof.
  destruct mm; simpl; unfold fgt; [apply flt_trans|].
  intros ??. by eapply flt_trans.
Qed.

Lemma feq_not_improves mm x y : feq x y = true → improves mm x y = false.
Proof. intros [??]%feq_not_flt. by destruct mm. Qed.

Lemma finite_improves_initial mm x :
  is_finite x = true → improves mm x (if mm then np_inf else np_neg_inf) = true.
Proof. destruct mm; [apply finite_lt_inf|apply finite_gt_neg_inf]. Qed.

Section FitProperties.

Context {Data Rng OptSt : Type} `{NumPy}.
Variable gen_batch : Data * Data → Z → list (Data * Data).
Implicit Types (self : FFN Data Rng OptSt) (s : State Data Rng OptSt).
Implicit Types (o : BaseOptimizer Data OptSt) (L : Locals).

Lemma frame_refl o s : frame o s s.
Proof. by repeat split. Qed.

Lemma frame_trans o s1 s2 s3 : frame o s1 s2 → frame o s2 s3 → frame o s1 s3.
Proof.
  intros [(?&?&?&?&?) ?] [(?&?&?&?&?) ?].
  repeat split; try congruence; auto.
Qed.

Lemma framed_ret {A} o (a : A) : framed (Rng := Rng) o (mret a).
Proof. intros s. apply frame_refl. Qed.

Lemma framed_bind {A B} o (m : M Data Rng OptSt A) (f : A → M Data Rng OptSt B) :
  framed o m → (∀ a, framed o (f a)) → framed o (m ≫= f).
Proof.
  intros Hm Hf s. specialize (Hm s).
  unfold mbind, M_bind. destruct (m s) as [[a|e] s1]; simpl in *; [|done].
  eapply frame_trans; [done|apply Hf].
Qed.

Lemma framed_lift {A} o (r : res A) : framed (Rng := Rng) o (lift r).
Proof. intros s. apply frame_refl. Qed.

Lemma framed_set_W_vect o r : framed (Rng := Rng) o (set_W_vect r).
Proof. intros s. split; [by repeat split|]. by intros (o'&?&?); exists o'. Qed.

Lemma framed_deepcopy o : framed (Rng := Rng) o deepcopy_W_vect.
Proof.
  intros s. unfold deepcopy_W_vect.
  destruct (deref _ _); simpl; [|apply frame_refl].
  split; [by repeat split|]. by intros (o'&?&?); exists o'.
Qed.

Lemma framed_eval o x y : framed (Rng := Rng) o (eval x y).
Proof. intros s. apply frame_refl. Qed.

Lemma framed_optimiser_apply o X y verbose :
  framed (Rng := Rng) o (optimiser_apply X y verbose).
Proof.
  intros s. unfold optimiser_apply.
  destruct (_optimiser (self s)) as [o'|] eqn:Ho; [|apply frame_refl].
  destruct (apply o' _ _ _ _ _ _ _) as [[r st] h]. simpl.
  split; [by repeat split|].
  intros (o''&Ho''&Happ). simplify_eq. by eexists.
Qed.

Lemma framed_batch_loop o tr_verbose batches :
  ∀ L, framed (Rng := Rng) o (batch_loop tr_verbose batches L).
Proof.
  induction batches as [|[X y] rest IH]; intros L; simpl.
  - apply framed_ret.
  - apply framed_bind; [apply framed_optimiser_apply|].
    intros [[stop new_inst] l].
    apply framed_bind; [apply framed_set_W_vect|]. intros _. apply IH.
Qed.

Lemma framed_epoch_body o tr va bs verbose mm i L :
  framed (Rng := Rng) o (epoch_body gen_batch tr va bs verbose mm i L).
Proof.
  unfold epoch_body.
  apply framed_bind; [apply framed_batch_loop|]. intros L1.
  apply framed_bind; [apply framed_eval|]. intros v.
  apply framed_bind; [apply framed_lift|]. intros val_loss.
  repeat case_match;
    try (apply framed_bind; [apply framed_deepcopy|intros ?]); apply framed_ret.
Qed.

Lemma framed_epoch_loop o tr va bs verbose mm indices :
  ∀ L, framed (Rng := Rng) o (epoch_loop gen_batch tr va bs verbose mm indices L).
Proof.
  induction indices as [|i rest IH]; intros L; simpl.
  - apply framed_ret.
  - apply framed_bind; [apply framed_epoch_body|]. intros L1.
    destruct (to_stop L1); [apply framed_ret|apply IH].
Qed.

(** C9, as the code has it: whatever the arguments and whether [fit] returns
    or raises, the parser, the layer sequence, the loss function and the
    regularization configuration are the same before and after; besides
    [W_vect], [fit] binds the field [_optimiser] to the optimiser it was
    given. *)
Theorem fit_frame o (train_sample validation_sample : Data * Data)
    (batch_size : Z) (epochs : option Z) (verbose : option bool)
    (load_best_model_on_end minimize_metric : bool) s :
  let s' := (fit gen_batch o train_sample validation_sample batch_size epochs
               verbose load_best_model_on_end minimize_metric s).2 in
  parser (self s') = parser (self s)
  ∧ layer_specs (self s') = layer_specs (self s)
  ∧ _loss (self s') = _loss (self s)
  ∧ regularization (self s') = regularization (self s)
  ∧ reg_coef (self s') = reg_coef (self s)
  ∧ ∃ o', _optimiser (self s') = Some o' ∧ apply o' = apply o.
Proof.
  set (s1 := {| self := set_optimiser o (self s); heap := heap s |}).
  assert (frame o s1 (fit gen_batch o train_sample validation_sample batch_size
            epochs verbose load_best_model_on_end minimize_metric s).2) as Hframe.
  { assert (fit gen_batch o train_sample validation_sample batch_size epochs
              verbose load_best_model_on_end minimize_metric s
            = (epoch_loop gen_batch train_sample validation_sample batch_size
                 (effective_verbose verbose) minimize_metric
                 (py_range (effective_epochs epochs)) (initial_locals minimize_metric)
               ≫= λ L, _ ← (if load_best_model_on_end
                            then set_W_vect (best_inst L) else mret ());
                       mret (history L)) s1) as -> by reflexivity.
    apply framed_bind; [apply framed_epoch_loop|]. intros L.
    apply framed_bind.
    - destruct load_best_model_on_end; [apply framed_set_W_vect|apply framed_ret].
    - intros _. apply framed_ret. }
  destruct Hframe as [(?&?&?&?&?) Hb]. simpl.
  split_and!; [done..|].
  apply Hb. by exists o.
Qed.

Lemma run_bind {A B} (m : M Data Rng OptSt A) (f : A → M Data Rng OptSt B) s :
  (m ≫= f) s =
    match m s with
    | (Ok a, s') => f a s'
    | (Raise e, s') => (Raise e, s')
    end.
Proof. reflexivity. Qed.

Lemma deepcopy_returns s : ∃ c s', deepcopy_W_vect s = (Ok c, s').
Proof. unfold deepcopy_W_vect. destruct (deref _ _); simpl; eauto. Qed.

Section Loop.

Variables train_sample validation_sample : Data * Data.
Variable batch_size : Z.
Variables verbose minimize_metric : bool.

Local Abbreviation batches := (batch_loop verbose).
Local Abbreviation body :=
  (epoch_body gen_batch train_sample validation_sample batch_size verbose
     minimize_metric).
Local Abbreviation loop :=
  (epoch_loop gen_batch train_sample validation_sample batch_size verbose
     minimize_metric).

Lemma batch_loop_app bs1 : ∀ bs2 L s,
  batches (bs1 ++ bs2) L s = (batches bs1 L ≫= batches bs2) s.
Proof.
  induction bs1 as [|[X y] bs1 IH]; intros bs2 L s; [done|].
  simpl. rewrite !run_bind.
  destruct (optimiser_apply X y verbose s) as [[[[stop ni] l]|e] s1]; [|done].
  rewrite !run_bind. simpl. by rewrite IH.
Qed.

Lemma batch_loop_locals bs : ∀ L s L1 s1,
  batches bs L s = (Ok L1, s1) →
  best_inst L1 = best_inst L ∧ best_score L1 = best_score L
  ∧ best_epoch L1 = best_epoch L ∧ history L1 = history L.
Proof.
  induction bs as [|[X y] bs IH]; intros L s L1 s1 Hrun.
  - cbv [batch_loop mret M_ret] in Hrun. by simplify_eq.
  - simpl in Hrun. rewrite run_bind in Hrun.
    destruct (optimiser_apply X y verbose s) as [[[[stop ni] l]|e] s2]; [|done].
    rewrite run_bind in Hrun. simpl in Hrun.
    by apply IH in Hrun.
Qed.

(** What a completed epoch did, read off the body of the loop. *)
Lemma epoch_body_inv i L s L' s' :
  body i L s = (Ok L', s') →
  ∃ L1 s1 v val_loss,
    batches (gen_batch train_sample batch_size) (start_epoch L) s = (Ok L1, s1)
    ∧ loss (self s1) (deref (heap s1) (W_vect (self s1)))
        validation_sample.1 validation_sample.2 true = Ok v
    ∧ getitem0 v = Ok val_loss
    ∧ history L' =
        {| epoch := epoch (history L) ++ [i];
           train_loss := train_loss (history L) ++ [np_mean (tr_accum_loss L1)];
           validation_loss := validation_loss (history L) ++ [val_loss] |}
    ∧ to_stop L' = to_stop L1
    ∧ if improves minimize_metric val_loss (best_score L)
      then best_score L' = val_loss ∧ best_epoch L' = i
           ∧ deepcopy_W_vect s1 = (Ok (best_inst L'), s')
      else best_score L' = best_score L ∧ best_epoch L' = best_epoch L
           ∧ best_inst L' = best_inst L ∧ s' = s1.
Proof.
  unfold epoch_body. rewrite run_bind.
  destruct (batches _ _ s) as [[L1 | e] s1] eqn:Hb; [|done].
  apply batch_loop_locals in Hb as Hloc.
  destruct Hloc as (Hbi & Hbs & Hbe & Hh). simpl in Hbi, Hbs, Hbe, Hh.
  rewrite run_bind. unfold eval at 1.
  destruct (loss _ _ _ _ _) as [v|e] eqn:Hv; [|done].
  rewrite run_bind. unfold lift at 1.
  destruct (getitem0 v) as [val_loss|e] eqn:Hg; [|done].
  intros Hrun. exists L1, s1, v, val_loss.
  rewrite Hbs, Hh in Hrun. unfold improves.
  destruct minimize_metric; simpl in Hrun.
  - destruct (flt val_loss (best_score L)); simpl in Hrun.
    + rewrite run_bind in Hrun.
      destruct (deepcopy_returns s1) as (c & s2 & Hc). rewrite Hc in Hrun.
      cbv [mret M_ret] in Hrun. by simplify_eq.
    + cbv [mret M_ret] in Hrun. by simplify_eq.
  - destruct (fgt val_loss (best_score L)); simpl in Hrun.
    + rewrite run_bind in Hrun.
      destruct (deepcopy_returns s1) as (c & s2 & Hc). rewrite Hc in Hrun.
      cbv [mret M_ret] in Hrun. by simplify_eq.
    + cbv [mret M_ret] in Hrun. by simplify_eq.
Qed.

Lemma deepcopy_contents s c s' :
  deepcopy_W_vect s = (Ok c, s') →
  deref (heap s') c = deref (heap s') (W_vect (self s'))
  ∧ self s' = self s.
Proof.
  unfold deepcopy_W_vect.
  destruct (deref (heap s) (W_vect (self s))) as [v|] eqn:Hv; simpl; intros ?; simplify_eq.
  - split; [|done]. simpl.
    destruct (W_vect (self s)) as [w|]; [|done]. simpl in *.
    rewrite list_lookup_middle by done.
    by rewrite lookup_app_l by by eapply lookup_lt_Some.
  - by rewrite Hv.
Qed.

Lemma epoch_loop_best indices : ∀ L s L' s',
  loop indices L s = (Ok L', s') →
  best_score L' = best_score L
  ∨ improves minimize_metric (best_score L') (best_score L) = true.
Proof.
  induction indices as [|i rest IH]; intros L s L' s' Hrun.
  - cbv [epoch_loop mret M_ret] in Hrun. simplify_eq. by left.
  - simpl in Hrun. rewrite run_bind in Hrun.
    destruct (body i L s) as [[L1|e] s1] eqn:Hbody; [|done].
    apply epoch_body_inv in Hbody as (La & sa & v & val_loss & _ & _ & _ & _ & _ & Hbest).
    assert (best_score L1 = best_score L
            ∨ improves minimize_metric (best_score L1) (best_score L) = true) as Hstep.
    { destruct (improves minimize_metric val_loss (best_score L)) eqn:Himp.
      - destruct Hbest as (-> & _). by right.
      - destruct Hbest as (-> & _). by left. }
    destruct (to_stop L1).
    + cbv [mret M_ret] in Hrun. by simplify_eq.
    + apply IH in Hrun as [->| Hrest]; [done|].
      destruct Hstep as [<-|Hstep]; [by right|].
      right. by eapply improves_trans.
Qed.

Lemma not_worse_no_regress (old new : float) :
  new = old ∨ improves minimize_metric new old = true →
  improves minimize_metric old new = false.
Proof. intros [->|?]; [apply improves_irrefl|by apply improves_asym]. Qed.

(** C2: in an epoch that completes, the snapshot [(best_inst, best_score,
    best_epoch)] is replaced exactly when the epoch's validation loss is
    strictly better than [best_score] in the configured direction, and is
    left alone otherwise, in particular when the two are equal; over that
    epoch and over the epochs that follow it, [best_score] never gets
    worse. *)
Theorem best_snapshot_updates_only_on_strict_improvement
    i rest L s L1 s1 L2 s2 :
  body i L s = (Ok L1, s1) →
  loop rest L1 s1 = (Ok L2, s2) →
  ∃ val_loss,
    validation_loss (history L1) = validation_loss (history L) ++ [val_loss]
    ∧ (improves minimize_metric val_loss (best_score L) = true →
         best_score L1 = val_loss ∧ best_epoch L1 = i
         ∧ deref (heap s1) (best_inst L1) = deref (heap s1) (W_vect (self s1)))
    ∧ (improves minimize_metric val_loss (best_score L) = false →
         best_inst L1 = best_inst L ∧ best_score L1 = best_score L
         ∧ best_epoch L1 = best_epoch L)
    ∧ (feq val_loss (best_score L) = true →
         best_inst L1 = best_inst L ∧ best_score L1 = best_score L
         ∧ best_epoch L1 = best_epoch L)
    ∧ improves minimize_metric (best_score L) (best_score L1) = false
    ∧ improves minimize_metric (best_score L1) (best_score L2) = false
    ∧ improves minimize_metric (best_score L) (best_score L2) = false.
Proof.
  intros Hbody Hloop.
  apply epoch_body_inv in Hbody
    as (La & sa & v & val_loss & _ & _ & _ & Hh & _ & Hbest).
  apply epoch_loop_best in Hloop as Hrest.
  exists val_loss.
  assert (best_score L1 = best_score L
          ∨ improves minimize_metric (best_score L1) (best_score L) = true) as Hstep.
  { destruct (improves minimize_metric val_loss (best_score L)) eqn:Himp.
    - destruct Hbest as (-> & _). by right.
    - destruct Hbest as (-> & _). by left. }
  assert (best_score L2 = best_score L
          ∨ improves minimize_metric (best_score L2) (best_score L) = true) as Hall.
  { destruct Hrest as [->|Hrest]; [done|].
    destruct Hstep as [<-|Hstep]; [by right|].
    right. by eapply improves_trans. }
  split_and!.
  - by rewrite Hh.
  - intros Himp. rewrite Himp in Hbest. destruct Hbest as (? & ? & Hcopy).
    by apply deepcopy_contents in Hcopy as [? _].
  - intros Himp. rewrite Himp in Hbest. by destruct Hbest as (? & ? & ? & _).
  - intros Heq. rewrite (feq_not_improves _ _ _ Heq) in Hbest.
    by destruct Hbest as (? & ? & ? & _).
  - by apply not_worse_no_regress.
  - by apply not_worse_no_regress.
  - by apply not_worse_no_regress.
Qed.

(** C3, as the code has it: in an epoch whose bookkeeping completes, the
    history gains exactly one entry (epoch index, mean training loss,
    validation loss) and [to_stop] is the flag returned for the last batch of
    the epoch ([False] when there was no batch); when that flag is true the
    loop ends with this epoch and no later epoch is run, and when it is
    false the loop goes on, whatever earlier batches returned. *)
Theorem stop_flag_of_last_batch_ends_loop i rest L s L' s' :
  body i L s = (Ok L', s') →
  (∃ mean val_loss,
     history L' =
       {| epoch := epoch (history L) ++ [i];
          train_loss := train_loss (history L) ++ [mean];
          validation_loss := validation_loss (history L) ++ [val_loss] |})
  ∧ (gen_batch train_sample batch_size = [] → to_stop L' = false)
  ∧ (∀ front X y,
       gen_batch train_sample batch_size = front ++ [(X, y)] →
       ∃ L1 s1 stop new_inst l s2,
         batches front (start_epoch L) s = (Ok L1, s1)
         ∧ optimiser_apply X y verbose s1 = (Ok (stop, new_inst, l), s2)
         ∧ to_stop L' = stop)
  ∧ (to_stop L' = true → loop (i :: rest) L s = (Ok L', s'))
  ∧ (to_stop L' = false → loop (i :: rest) L s = loop rest L' s').
Proof.
  intros Hbody.
  pose proof Hbody as Hinv.
  apply epoch_body_inv in Hinv
    as (L1 & s1 & v & val_loss & Hb & _ & _ & Hh & Hstop & _).
  split_and!.
  - by eexists _, _.
  - intros Hnil. rewrite Hnil in Hb.
    cbv [batch_loop mret M_ret] in Hb. simplify_eq. by rewrite Hstop.
  - intros front X y Hsnoc. rewrite Hsnoc, batch_loop_app, run_bind in Hb.
    destruct (batches front (start_epoch L) s) as [[La|e] sa] eqn:Hfront; [|done].
    simpl in Hb. rewrite run_bind in Hb.
    destruct (optimiser_apply X y verbose sa) as [[[[stop ni] l]|e] sb] eqn:Happ;
      [|done].
    rewrite run_bind in Hb. cbv [set_W_vect batch_loop mret M_ret] in Hb.
    simplify_eq.
    exists La, sa, stop, ni, l, sb. by rewrite Hstop.
  - intros Ht. simpl. by rewrite run_bind, Hbody, Ht.
  - intros Ht. simpl. by rewrite run_bind, Hbody, Ht.
Qed.

(** C8, as the code has it: [fit] takes element 0 of what [eval] returns.
    In an epoch whose batches complete, if the forward pass on the held-out
    sample succeeds, the loss collaborator returns a non-empty
    one-dimensional array and [reg_coef] is a number [c], then the epoch
    completes and appends the first element of that array, plus [c * 0.0],
    to the history's list of validation losses. *)
Theorem validation_loss_is_first_element i L s L1 s1 pred a arr c :
  batches (gen_batch train_sample batch_size) (start_epoch L) s = (Ok L1, s1) →
  _predict (self s1) (deref (heap s1) (W_vect (self s1))) validation_sample.1
    = Ok pred →
  _loss (self s1) pred validation_sample.2 = Ok (Array1 (a :: arr)) →
  reg_coef (self s1) = KNum c →
  ∃ L' s',
    body i L s = (Ok L', s')
    ∧ eval validation_sample.1 validation_sample.2 s1
      = (Ok (Array1 ((λ x, fadd x (fmul c fzero)) <$> a :: arr)), s1)
    ∧ validation_loss (history L')
      = validation_loss (history L) ++ [fadd a (fmul c fzero)].
Proof.
  intros Hb Hpred Hloss Hc.
  assert (eval validation_sample.1 validation_sample.2 s1
          = (Ok (Array1 ((λ x, fadd x (fmul c fzero)) <$> a :: arr)), s1)) as Heval.
  { unfold eval, loss. rewrite !andb_false_r. simpl.
    rewrite Hpred. simpl. rewrite Hloss. simpl. by rewrite Hc. }
  apply batch_loop_locals in Hb as Hloc. destruct Hloc as (_ & _ & _ & Hh).
  simpl in Hh.
  unfold epoch_body. rewrite run_bind, Hb, run_bind, Heval, run_bind.
  cbn [lift getitem0 fmap list_fmap].
  repeat case_match; rewrite ?run_bind;
    try (destruct (deepcopy_returns s1) as (cp & s2 & ->));
    eexists _, _; (split_and!; [reflexivity|done|]); simpl; by rewrite Hh.
Qed.

End Loop.

Lemma loss_same_config self self' :
  same_config self self' →
  ∀ W X y omit_reg, loss self' W X y omit_reg = loss self W X y omit_reg.
Proof.
  intros (Hp & Hl & Hf & Hr & Hc) W X y omit_reg.
  unfold loss, _predict. by rewrite Hp, Hl, Hf, Hr, Hc.
Qed.

Section Snapshot.

Variable footprint : OptSt → gset loc.
Variable o : BaseOptimizer Data OptSt.
Variables train_sample validation_sample : Data * Data.
Variable batch_size : Z.
Variables verbose minimize_metric : bool.
Variable n0 : nat.

Local Abbreviation inv :=
  (snapshot_inv footprint o validation_sample minimize_metric n0).

Lemma snapshot_inv_batch X y L s stop new_inst l s2 :
  respects_frame footprint o →
  inv L s →
  optimiser_apply X y verbose s = (Ok (stop, new_inst, l), s2) →
  inv (after_batch L stop new_inst l) (set_W_vect (Some new_inst) s2).2.
Proof.
  intros [Hframe] ((w & HW & Hw) & Hn0 & (o' & Ho' & Happ & Hfp) & Hhist & Hbest) Hrun.
  unfold optimiser_apply in Hrun. rewrite Ho' in Hrun.
  destruct (apply o' _ _ _ _ _ _ _) as [[r st'] h'] eqn:Hcall.
  rewrite Happ in Hcall.
  apply Hframe in Hcall as (Hlen & Hcells & Hfp' & Hret);
    [|done|by intros ? ?; simplify_eq].
  injection Hrun as -> <-.
  destruct (Hret _ _ _ eq_refl) as [Hni Hni'].
  split_and!; simpl.
  - by exists new_inst.
  - lia.
  - eexists. split_and!; [done..|]. simpl. intros l0 Hl0. by apply Hfp'.
  - done.
  - destruct (best_inst L) as [b|]; [|done].
    destruct Hbest as ([Hb0 Hb] & HbW & Hbfp & Hin & (wb & arr & Hwb & Hloss & Hget)).
    specialize (Hbfp _ Ho').
    split_and!.
    + lia.
    + lia.
    + intros [= ->]. destruct (Hni' Hb) as [?|?]; [done|congruence].
    + intros o'' [= <-]. simpl. intros Hin'.
      destruct (Hfp' _ Hin') as [_ Hold]. destruct (Hold Hb) as [?|?]; [done|congruence].
    + done.
    + exists wb, arr. split_and!; [|done..].
      rewrite Hcells; [done..|congruence].
Qed.

Lemma snapshot_inv_batch_loop (Hframe : respects_frame footprint o) batches :
  ∀ L s L1 s1,
    inv L s →
    batch_loop verbose batches L s = (Ok L1, s1) →
    inv L1 s1.
Proof.
  induction batches as [|[X y] rest IH]; intros L s L1 s1 Hinv Hrun.
  - cbv [batch_loop mret M_ret] in Hrun. by simplify_eq.
  - simpl in Hrun. rewrite run_bind in Hrun.
    destruct (optimiser_apply X y verbose s) as [[[[stop ni] l]|e] s2] eqn:Happ;
      [|done].
    rewrite run_bind in Hrun.
    eapply IH; [|exact Hrun]. by eapply snapshot_inv_batch.
Qed.

Lemma snapshot_inv_start_epoch L s : inv L s → inv (start_epoch L) s.
Proof. done. Qed.

Lemma snapshot_inv_epoch_body (Hframe : respects_frame footprint o) i L s L' s' :
  inv L s →
  epoch_body gen_batch train_sample validation_sample batch_size verbose
    minimize_metric i L s = (Ok L', s') →
  inv L' s'.
Proof.
  intros Hinv Hrun.
  apply epoch_body_inv in Hrun
    as (L1 & s1 & v & val_loss & Hb & Hv & Hget & Hh & _ & Hbest).
  apply batch_loop_locals in Hb as Hloc.
  destruct Hloc as (Hbi & Hbs & _ & Hhist1). simpl in Hbi, Hbs, Hhist1.
  apply snapshot_inv_batch_loop in Hb; [|done|by apply snapshot_inv_start_epoch].
  destruct Hb as ((w & HW & Hw) & Hn0 & (o' & Ho' & Happ & Hfp) & Hhist & Hsnap).
  rewrite Hbs, Hhist1 in Hhist. rewrite Hbi, Hbs, Hhist1 in Hsnap.
  destruct (improves minimize_metric val_loss (best_score L)) eqn:Himp.
  - destruct Hbest as (Hscore & _ & Hcopy).
    unfold deepcopy_W_vect in Hcopy. rewrite HW in Hcopy, Hv. simpl in Hcopy, Hv.
    destruct (lookup_lt_is_Some_2 _ _ Hw) as [vec_w Hvec].
    rewrite Hvec in Hcopy, Hv. simpl in Hcopy.
    injection Hcopy as Hbest' <-.
    split_and!; unfold live_vector_ok; simpl.
    + exists w. split; [done|]. rewrite length_app. lia.
    + rewrite length_app. lia.
    + exists o'. split_and!; [done..|]. intros l Hl. rewrite length_app.
      specialize (Hfp l Hl). lia.
    + rewrite Hh, Hscore. simpl.
      intros v' [Hold|Hnew%list_elem_of_singleton]%elem_of_app; [|subst v'].
      * destruct (improves minimize_metric v' val_loss) eqn:Hv'; [|done].
        rewrite <- (Hhist v' Hold). symmetry. by eapply improves_trans.
      * apply improves_irrefl.
    + rewrite <- Hbest'. split_and!.
      * lia.
      * rewrite length_app. simpl. lia.
      * rewrite HW. intros [= ->]. lia.
      * intros o'' Ho''. simplify_eq. intros Hin%Hfp. lia.
      * rewrite Hh, Hscore. simpl. apply elem_of_app. right. by apply list_elem_of_singleton.
      * exists vec_w, v. rewrite list_lookup_middle by done.
        by rewrite Hscore.
  - destruct Hbest as (Hscore & _ & Hinst & ->).
    split_and!.
    + by exists w.
    + done.
    + by exists o'.
    + rewrite Hh, Hscore. simpl.
      intros v' [Hold|Hnew%list_elem_of_singleton]%elem_of_app; [|subst v'].
      * by apply Hhist.
      * exact Himp.
    + rewrite Hinst, Hscore.
      destruct (best_inst L) as [b|]; [|done].
      destruct Hsnap as ([??] & ? & ? & Hin & ?).
      split_and!; [done..| |done].
      rewrite Hh. simpl. apply elem_of_app. by left.
Qed.

Lemma snapshot_inv_epoch_loop (Hframe : respects_frame footprint o) indices :
  ∀ L s L' s',
    inv L s →
    epoch_loop gen_batch train_sample validation_sample batch_size verbose
      minimize_metric indices L s = (Ok L', s') →
    inv L' s'.
Proof.
  induction indices as [|i rest IH]; intros L s L' s' Hinv Hrun.
  - cbv [epoch_loop mret M_ret] in Hrun. by simplify_eq.
  - simpl in Hrun. rewrite run_bind in Hrun.
    destruct (epoch_body _ _ _ _ _ _ i L s) as [[L1|e] s1] eqn:Hbody; [|done].
    apply snapshot_inv_epoch_body in Hbody; [|done..].
    destruct (to_stop L1).
    + cbv [mret M_ret] in Hrun. by simplify_eq.
    + by eapply IH.
Qed.

End Snapshot.

(** [fit] as a function of the run of its epoch loop. *)
Lemma fit_unfold o (train_sample validation_sample : Data * Data)
    (batch_size : Z) (epochs : option Z) (verbose : option bool)
    (load_best_model_on_end minimize_metric : bool) s :
  fit gen_batch o train_sample validation_sample batch_size epochs verbose
    load_best_model_on_end minimize_metric s
  = match epoch_loop gen_batch train_sample validation_sample batch_size
            (effective_verbose verbose) minimize_metric
            (py_range (effective_epochs epochs)) (initial_locals minimize_metric)
            {| self := set_optimiser o (self s); heap := heap s |} with
    | (Ok L, s1) =>
        (Ok (history L),
         if load_best_model_on_end then (set_W_vect (best_inst L) s1).2 else s1)
    | (Raise e, s1) => (Raise e, s1)
    end.
Proof.
  unfold fit, fit_loop. rewrite !run_bind. cbn [assign_optimiser].
  destruct (epoch_loop _ _ _ _ _ _ _ _ _) as [[L|e] s1]; [|done].
  rewrite run_bind. by destruct load_best_model_on_end.
Qed.

Lemma epoch_loop_single tr va bs verbose mm i L s :
  epoch_loop gen_batch tr va bs verbose mm [i] L s
  = epoch_body gen_batch tr va bs verbose mm i L s.
Proof.
  simpl. rewrite run_bind.
  destruct (epoch_body _ _ _ _ _ _ _ _ _) as [[L1|e] s1]; [|done].
  by destruct (to_stop L1).
Qed.

(** C4, as the code has it: [epochs == 0] is falsy and is replaced by the
    default 1, so [fit] behaves exactly as it does with [epochs] left out or
    equal to 1; when it returns, one training epoch has been run and the
    history holds the single entry of epoch 0. *)
Theorem zero_epochs_runs_one_epoch o (train_sample validation_sample : Data * Data)
    (batch_size : Z) (verbose : option bool)
    (load_best_model_on_end minimize_metric : bool) s :
  fit gen_batch o train_sample validation_sample batch_size (Some 0) verbose
    load_best_model_on_end minimize_metric s
  = fit gen_batch o train_sample validation_sample batch_size None verbose
      load_best_model_on_end minimize_metric s
  ∧ fit gen_batch o train_sample validation_sample batch_size (Some 0) verbose
      load_best_model_on_end minimize_metric s
    = fit gen_batch o train_sample validation_sample batch_size (Some 1) verbose
        load_best_model_on_end minimize_metric s
  ∧ ∀ hist s',
      fit gen_batch o train_sample validation_sample batch_size (Some 0) verbose
        load_best_model_on_end minimize_metric s = (Ok hist, s') →
      ∃ mean val_loss,
        hist = {| epoch := [0]; train_loss := [mean]; validation_loss := [val_loss] |}.
Proof.
  split_and!; [reflexivity..|].
  intros hist s' Hfit. rewrite fit_unfold in Hfit.
  change (py_range (effective_epochs (Some 0))) with [0] in Hfit.
  rewrite epoch_loop_single in Hfit.
  destruct (epoch_body _ _ _ _ _ _ _ _ _) as [[L1|e] s1] eqn:Hbody; [|done].
  apply epoch_body_inv in Hbody as (La & sa & v & val_loss & _ & _ & _ & Hh & _).
  simplify_eq. rewrite Hh. by eexists _, _.
Qed.

(** C6, as the code has it: let the network enter [fit] with an array as
    its live parameter vector and let the optimiser respect the heap
    contract.  If the epoch loop exits normally and at least one recorded
    validation loss is finite, then [best_inst] is set; it is an array
    allocated during this call, different from the live vector at loop exit
    and out of the optimiser's reach, so no training step can have
    overwritten it: its contents still evaluate to [best_score], a recorded
    validation loss that no recorded validation loss strictly improves on.
    With [load_best_model_on_end] true, [fit] then returns with [W_vect]
    bound to that array. *)
Theorem best_snapshot_is_loaded (footprint : OptSt → gset loc) o
    (train_sample validation_sample : Data * Data) (batch_size : Z)
    (epochs : option Z) (verbose : option bool) (minimize_metric : bool)
    s L s1 :
  respects_frame footprint o →
  live_vector_ok s →
  (∀ l, l ∈ footprint (opt_state o) → (l < length (heap s))%nat) →
  fit_loop gen_batch o train_sample validation_sample batch_size epochs verbose
    minimize_metric s = (Ok L, s1) →
  (∃ v, v ∈ validation_loss (history L) ∧ is_finite v = true) →
  ∃ (b : loc) (w : vec) (arr : ndvalue),
    best_inst L = Some b
    ∧ fit gen_batch o train_sample validation_sample batch_size epochs verbose
        true minimize_metric s
      = (Ok (history L), (set_W_vect (Some b) s1).2)
    ∧ W_vect (self (set_W_vect (Some b) s1).2) = Some b
    ∧ (length (heap s) ≤ b < length (heap s1))%nat
    ∧ W_vect (self s1) ≠ Some b
    ∧ (∀ o', _optimiser (self s1) = Some o' → b ∉ footprint (opt_state o'))
    ∧ heap s1 !! b = Some w
    ∧ loss (self s1) (Some w) validation_sample.1 validation_sample.2 true = Ok arr
    ∧ getitem0 arr = Ok (best_score L)
    ∧ best_score L ∈ validation_loss (history L)
    ∧ ∀ v, v ∈ validation_loss (history L) →
           improves minimize_metric v (best_score L) = false.
Proof.
  intros Hframe (w0 & HW0 & Hw0) Hfp Hrun (v & Hv & Hfin).
  assert (snapshot_inv footprint o validation_sample minimize_metric
            (length (heap s)) L s1) as Hinv.
  { eapply snapshot_inv_epoch_loop; [done| |exact Hrun].
    split_and!; simpl.
    - by exists w0.
    - done.
    - by exists o.
    - intros ? ?%elem_of_nil. done.
    - done. }
  destruct Hinv as (_ & _ & _ & Hhist & Hsnap).
  destruct (best_inst L) as [b|] eqn:Hb.
  - destruct Hsnap as (Hrange & HbW & Hbfp & Hin & (w & arr & Hw & Hloss & Hget)).
    exists b, w, arr. split_and!; try done; try lia.
    rewrite fit_unfold.
    unfold fit_loop in Hrun. rewrite run_bind in Hrun. cbn [assign_optimiser] in Hrun.
    by rewrite Hrun, Hb.
  - specialize (Hhist v Hv). rewrite Hsnap in Hhist.
    by rewrite finite_improves_initial in Hhist.
Qed.

End FitProperties.

(** ** The model on concrete collaborators *)

Section Runs.

Import Stub.

Lemma start_is_built lossf :
  __init__ [1] [layer "Dense" 2] lossf ∅ 0%nat []
  = (Ok (self (start lossf)), 1%nat, heap (start lossf)).
Proof. reflexivity. Qed.

Lemma scripted_respects_frame fresh st :
  respects_frame (λ _ : script, ∅) (scripted fresh st).
Proof.
  constructor. intros st0 h lossf X y W verbose r st' h' Hcall _ HW.
  simpl in Hcall. unfold scripted_apply in Hcall.
  destruct st0 as [|[[stop v] l] rest].
  { simplify_eq. split_and!; [done..|set_solver|done]. }
  destruct fresh.
  - simplify_eq. rewrite length_app. simpl.
    split_and!; [lia| |set_solver|].
    + intros l0 Hl0 _ _. by rewrite lookup_app_l.
    + intros ??? [= <- <- <-]. split; lia.
  - destruct W as [w|]; simplify_eq.
    + rewrite length_insert. split_and!; [lia| |set_solver|].
      * intros l0 Hl0 _ Hne. rewrite list_lookup_insert_ne; [done|congruence].
      * intros ??? [= <- <- <-]. split; [by apply HW|by right].
    + split_and!; [done..|set_solver|done].
Qed.

Lemma layer_initializer_contract name k (layer0 : BaseLayer vec nat) :
  layer0 = layer name k → ∀ g n, length (initializer layer0 g n).1 = n.
Proof. intros -> g n. simpl. apply length_replicate. Qed.

(** C1, on a concrete network: with [reg_coef = 0.5] and kind "l2", the
    loss at [W = [3, 1]] is [3 + 0.5 * 10], and [3 + 0.5 * 0.0] when
    [omit_reg] is set. *)
Example loss_at_concrete_weights :
  let self : FFN vec nat script :=
              {| parser := parser (net0 loss_array);
                 regularization := KStr "l2";
                 reg_coef := KNum half;
                 layer_specs := layer_specs (net0 loss_array);
                 _loss := loss_array;
                 W_vect := Some 0%nat;
                 _optimiser := None |} in
  loss self (Some [three; one]) [one] [one] false = Ok (Array1 [of_nat 8])
  ∧ loss self (Some [three; one]) [one] [one] true = Ok (Array1 [three]).
Proof. split; vm_compute; reflexivity. Qed.

(** Witness of C10: construction without the keyword, [reg_coef = 0.5]. *)
Lemma default_regularization_is_l2_witness :
  ∃ (self : FFN vec nat script) g' h',
    ({["reg_coef" := KNum half]} : gmap string kwval) !! "regularization" = None
    ∧ __init__ [1] [layer "Dense" 2] loss_array {["reg_coef" := KNum half]} 0%nat []
      = (Ok self, g', h')
    ∧ regularization self = KStr "l2"
    ∧ reg_coef self = KNum half.
Proof.
  assert (({["reg_coef" := KNum half]} : gmap string kwval) !! "regularization"
          = None) as Hkw by (vm_compute; reflexivity).
  eexists _, _, _.
  split; [exact Hkw|]. split; [vm_compute; reflexivity|].
  pose proof (λ g' h' self,
    default_regularization_is_l2 (OptSt := script) [1] [layer "Dense" 2]
      loss_array {["reg_coef" := KNum half]} 0%nat g' [] h' self Hkw) as Hthm.
  edestruct Hthm as (Hkind & Hcoef & _); [vm_compute; reflexivity|].
  split; [exact Hkind|]. rewrite Hcoef. vm_compute. reflexivity.
Defined.

(** Witness of C5: two layers with 2 and 3 parameters. *)
Lemma layout_invariant_witness :
  ∃ (self : FFN vec nat script) g' h' w,
    __init__ (OptSt := script) [1] [layer "Dense" 2; layer "Out" 3] loss_array ∅ 0%nat []
      = (Ok self, g', h')
    ∧ deref h' (W_vect self) = Some w
    ∧ length w = registered_size (parser self)
    ∧ registered_size (parser self) = 5%nat.
Proof.
  assert (∀ layer0 : BaseLayer vec nat,
            layer0 ∈ [layer "Dense" 2; layer "Out" 3] →
            ∀ g n, length (initializer layer0 g n).1 = n) as Hcontract.
  { intros layer0 Hin.
    apply elem_of_cons in Hin as [Hin|Hin]; [by eapply layer_initializer_contract|].
    apply list_elem_of_singleton in Hin. by eapply layer_initializer_contract. }
  pose proof (λ g' h' self,
    layout_invariant (OptSt := script) [1] [layer "Dense" 2; layer "Out" 3]
      loss_array ∅ 0%nat g' [] h' self Hcontract) as Hthm.
  eexists _, _, _.
  edestruct Hthm as (w & Hw & Hlen & Hcur); [vm_compute; reflexivity|].
  exists w. split_and!; [reflexivity|exact Hw|exact Hlen|vm_compute; reflexivity].
Defined.

(** Refutation of C3 as stated: the first of the two batches of epoch 0
    returns a true stop flag, the second a false one, and epoch 1 is run all
    the same. *)
Lemma stop_in_first_batch_does_not_end_loop :
  ∃ new_inst l sa hist s',
    optimiser_apply [one] [one] false (entered loss_array stop_early)
      = (Ok (true, new_inst, l), sa)
    ∧ fit two_batches stop_early sample sample 1 (Some 2) None true true
        (start loss_array) = (Ok hist, s')
    ∧ epoch hist = [0; 1].
Proof.
  eexists _, _, _, _, _.
  split; [vm_compute; reflexivity|].
  split; [vm_compute; reflexivity|].
  reflexivity.
Qed.

(** Witness of C3: the stop flag comes with the last batch of epoch 0 and
    the loop over epochs 0, 1, 2 ends after epoch 0. *)
Lemma stop_flag_of_last_batch_ends_loop_witness :
  ∃ L' s',
    epoch_body two_batches sample sample 1 false true 0 (initial_locals true)
        (entered loss_array stop_last) = (Ok L', s')
    ∧ to_stop L' = true
    ∧ epoch_loop two_batches sample sample 1 false true [0; 1; 2]
        (initial_locals true) (entered loss_array stop_last) = (Ok L', s')
    ∧ epoch (history L') = [0].
Proof.
  pose proof (stop_flag_of_last_batch_ends_loop two_batches sample sample 1
                false true 0 [1; 2] (initial_locals true)
                (entered loss_array stop_last)) as Hthm.
  eexists _, _.
  edestruct Hthm as (_ & _ & _ & Hstop & _); [vm_compute; reflexivity|].
  split; [vm_compute; reflexivity|].
  split; [reflexivity|].
  split; [apply Hstop; reflexivity|reflexivity].
Defined.

(** Refutation of C4 as stated: with [epochs = 0] the call is not rejected
    and an epoch is trained: the optimiser's script is consumed, the history
    has the entry of epoch 0 and a snapshot is loaded. *)
Lemma zero_epochs_trains_one_epoch :
  ∃ hist s',
    fit one_batch (scripted true [(false, [two; one], one)]) sample sample 1
        (Some 0) None true true (start loss_array) = (Ok hist, s')
    ∧ hist = {| epoch := [0]; train_loss := [one]; validation_loss := [two] |}
    ∧ opt_state <$> _optimiser (self s') = Some []
    ∧ W_vect (self s') = Some 2%nat
    ∧ heap s' !! 2%nat = Some [two; one].
Proof.
  eexists _, _.
  split; [vm_compute; reflexivity|].
  split_and!; vm_compute; reflexivity.
Qed.

(** Witness of C4. *)
Lemma zero_epochs_runs_one_epoch_witness :
  ∃ hist s',
    fit one_batch (scripted true [(false, [two; one], one)]) sample sample 1
        (Some 0) None true true (start loss_array) = (Ok hist, s')
    ∧ ∃ mean val_loss,
        hist = {| epoch := [0]; train_loss := [mean]; validation_loss := [val_loss] |}.
Proof.
  pose proof (proj2 (proj2 (zero_epochs_runs_one_epoch one_batch
      (scripted true [(false, [two; one], one)]) sample sample 1 None true true
      (start loss_array)))) as Hthm.
  eexists _, _.
  edestruct Hthm as (mean & val_loss & Hhist); [vm_compute; reflexivity|].
  split; [vm_compute; reflexivity|]. exists mean, val_loss. exact Hhist.
Defined.

(** Refutation of C6 as stated: one epoch is run, its validation loss is
    [+inf], no snapshot is ever taken and [fit] leaves [W_vect] bound to
    [None]. *)
Lemma no_snapshot_when_validation_loss_is_inf :
  ∃ L s1 hist s',
    fit_loop one_batch diverging sample sample 1 (Some 1) None true
      (start loss_array) = (Ok L, s1)
    ∧ best_inst L = None
    ∧ fit one_batch diverging sample sample 1 (Some 1) None true true
        (start loss_array) = (Ok hist, s')
    ∧ hist = {| epoch := [0]; train_loss := [one]; validation_loss := [np_inf] |}
    ∧ W_vect (self s') = None.
Proof.
  eexists _, _, _, _.
  split; [vm_compute; reflexivity|].
  split; [reflexivity|].
  split; [vm_compute; reflexivity|].
  split; vm_compute; reflexivity.
Qed.

(** Refutation of C8 as stated: a loss collaborator that returns a bare
    scalar makes the first epoch raise when [fit] indexes the result of
    [eval]. *)
Lemma scalar_loss_makes_fit_raise :
  ∃ x s',
    eval [one] [one] (start loss_scalar) = (Ok (Scalar x), start loss_scalar)
    ∧ fit one_batch (scripted true [(false, [two; one], one)]) sample sample 1
        (Some 1) None true true (start loss_scalar) = (Raise TypeError, s').
Proof.
  eexists _, _.
  split; vm_compute; reflexivity.
Qed.

(** Refutation of C9 as stated: the constructed network has no field
    [_optimiser]; after [fit] it has one. *)
Lemma fit_creates_the_optimiser_field :
  _optimiser (self (start loss_array)) = None
  ∧ ¬ only_W_vect_mutated (start loss_array)
        (fit one_batch (scripted true [(false, [two; one], one)]) sample sample 1
           (Some 1) None true true (start loss_array)).2.
Proof.
  split; [reflexivity|].
  intros [_ Hopt]. vm_compute in Hopt. discriminate Hopt.
Qed.

(** Witness of C2: validation losses 3, 2, 2, 1 while minimizing. *)
Lemma best_snapshot_updates_only_on_strict_improvement_witness :
  ∃ L1 s1 L2 s2,
    epoch_body one_batch sample sample 1 false true 0 (initial_locals true)
        (entered loss_array descending) = (Ok L1, s1)
    ∧ epoch_loop one_batch sample sample 1 false true [1; 2; 3] L1 s1 = (Ok L2, s2)
    ∧ best_score L1 = three
    ∧ best_epoch L1 = 0
    ∧ improves true (best_score L1) (best_score L2) = false.
Proof.
  pose proof (best_snapshot_updates_only_on_strict_improvement one_batch
                sample sample 1 false true 0 [1; 2; 3] (initial_locals true)
                (entered loss_array descending)) as Hthm.
  eexists _, _, _, _.
  edestruct Hthm as (val_loss & Hval & Hup & _ & _ & _ & Hrest & _);
    [vm_compute; reflexivity|vm_compute; reflexivity|].
  split; [vm_compute; reflexivity|].
  split; [vm_compute; reflexivity|].
  split; [reflexivity|]. split; [reflexivity|]. exact Hrest.
Defined.

(** The tie of the specification's scenario: with validation losses 3, 2, 2
    the snapshot taken at the first 2 (epoch 1) is kept at the second. *)
Example tie_keeps_first_snapshot :
  ∃ L s1,
    fit_loop one_batch descending sample sample 1 (Some 3) None true
      (start loss_array) = (Ok L, s1)
    ∧ validation_loss (history L) = [three; two; two]
    ∧ best_score L = two
    ∧ best_epoch L = 1
    ∧ best_inst L = Some 4%nat.
Proof.
  eexists _, _. split; [vm_compute; reflexivity|].
  split_and!; vm_compute; reflexivity.
Qed.

(** Witness of C6: the optimiser overwrites the live array in place, first
    with weights of validation loss 2, then of validation loss 3; the
    snapshot taken after the first epoch still holds the former. *)
Lemma best_snapshot_is_loaded_witness :
  ∃ L s1 b,
    fit_loop one_batch in_place sample sample 1 (Some 2) None true
      (start loss_array) = (Ok L, s1)
    ∧ validation_loss (history L) = [two; three]
    ∧ best_inst L = Some b
    ∧ heap s1 !! b = Some [two; one]
    ∧ deref (heap s1) (W_vect (self s1)) = Some [three; one]
    ∧ W_vect (self (fit one_batch in_place sample sample 1 (Some 2) None true true
                      (start loss_array)).2) = Some b.
Proof.
  assert (live_vector_ok (start loss_array)) as Hlive.
  { exists 0%nat. split; [reflexivity|]. simpl. lia. }
  assert (∀ l : loc, l ∈ (∅ : gset loc) → (l < length (heap (start loss_array)))%nat)
    as Hfp by (intros l Hl; by apply not_elem_of_empty in Hl).
  pose proof (λ L s1,
    best_snapshot_is_loaded one_batch (λ _ : script, ∅) in_place sample sample 1
      (Some 2) None true (start loss_array) L s1
      (scripted_respects_frame false _) Hlive Hfp) as Hthm.
  edestruct Hthm as (b & w & arr & Hb & Hfit & _); [vm_compute; reflexivity| |].
  { exists two. split; [|reflexivity]. vm_compute. apply elem_of_cons. by left. }
  eexists _, _, b.
  split; [vm_compute; reflexivity|].
  split; [vm_compute; reflexivity|].
  split; [exact Hb|].
  vm_compute in Hb. injection Hb as <-.
  split; [vm_compute; reflexivity|].
  split; [vm_compute; reflexivity|].
  rewrite Hfit. reflexivity.
Defined.

(** Witness of C8: the loss collaborator returns the one-element array
    [[3]]. *)
Lemma validation_loss_is_first_element_witness :
  ∃ L1 s1 L' s',
    batch_loop false (one_batch sample 1) (start_epoch (initial_locals true))
        (entered loss_array descending) = (Ok L1, s1)
    ∧ epoch_body one_batch sample sample 1 false true 0 (initial_locals true)
        (entered loss_array descending) = (Ok L', s')
    ∧ validation_loss (history L') = [fadd three (fmul fzero fzero)].
Proof.
  pose proof (validation_loss_is_first_element one_batch sample sample 1 false true
                0 (initial_locals true) (entered loss_array descending)) as Hthm.
  edestruct Hthm as (L' & s' & Hbody & _ & Hval);
    [vm_compute; reflexivity..|].
  eexists _, _, L', s'.
  split; [vm_compute; reflexivity|].
  split; [exact Hbody|exact Hval].
Defined.

End Runs.

(** ** Further properties of the methods *)

Section MoreProperties.

Context {Data Rng OptSt : Type} `{NumPy}.
Implicit Types (self : FFN Data Rng OptSt) (s : State Data Rng OptSt).
Implicit Types (o : BaseOptimizer Data OptSt) (L : Locals).

(** X1: [frac_err] never returns a value.  It passes two positional
    arguments to [predict], which takes one, so whatever the samples and
    the state it raises: the error of [np.argmax] on the targets when that
    call fails, [TypeError] otherwise; the state is left as it was. *)
Theorem frac_err_always_raises (np_argmax : Data → Z → res (list Z))
    (np_mean_ne : list Z → list Z → float)
    (array_as_data : option (list spec_float) → Data) (X T : Data) s :
  frac_err np_argmax np_mean_ne array_as_data X T s
  = (Raise match np_argmax T 1 with
           | Raise e => e
           | Ok _ => TypeError
           end, s).
Proof.
  unfold frac_err. rewrite run_bind. unfold lift at 1.
  by destruct (np_argmax T 1).
Qed.

Lemma predict_layers_app (p : WeightsParser) (W : pyvec)
    (l1 l2 : list (BaseLayer Data Rng)) : ∀ x,
  predict_layers Data Rng p W (l1 ++ l2) x
  = predict_layers Data Rng p W l1 x ≫= predict_layers Data Rng p W l2.
Proof.
  induction l1 as [|layer l1 IH]; intros x; [done|].
  simpl. destruct (get p W (str layer)) as [w|e]; [|done]. simpl.
  destruct (forward layer x w) as [x'|e]; [|done]. simpl. apply IH.
Qed.

(** X2: the forward pass is the composition of the layers in order.  Cut
    the layer sequence anywhere: [_predict] is the pass through the first
    part followed by the pass through the rest on its output, and an error
    raised in the first part is the result, the rest not being run. *)
Theorem predict_composes self (W : pyvec) (x : Data) (k : nat) :
  _predict self W x
  = predict_layers Data Rng (parser self) W (take k (layer_specs self)) x
    ≫= predict_layers Data Rng (parser self) W (drop k (layer_specs self)).
Proof.
  unfold _predict. rewrite <- predict_layers_app. by rewrite take_drop.
Qed.



Lemma init_layers_rejected (layers : list (BaseLayer Data Rng)) :
  ∀ num shape p W g e,
    out_shape layers shape = Raise e →
    ∃ e' g', init_layers num layers shape p W g = (Raise e', g')
             ∧ (e' = e ∨ e' = DuplicateIdentifierError).
Proof.
  induction layers as [|layer rest IH]; intros num shape p W g e Hshape; [done|].
  simpl in *.
  destruct (build_weights_dict layer shape) as [[n shape1]|e0]; simplify_eq.
  - destruct (add_weights p _ [n]) as [p1|e1] eqn:Hadd.
    + destruct (initializer layer g n) as [w g1].
      destruct (IH (num + 1) shape1 p1 (W ++ w) g1 e Hshape) as (e' & g' & -> & He').
      by eexists _, _.
    + eexists _, _. split; [done|]. right.
      unfold add_weights in Hadd. destruct (find_descriptor _ _); by simplify_eq.
  - eexists _, _. split; [done|]. by left.
Qed.

(** X4: shapes are chained and a rejection stops construction.  Each layer
    is asked with the output shape of the layer before it (the first with
    [input_shape]); if some layer rejects the shape it is handed,
    [__init__] raises, with that layer's error unless an earlier layer's
    identifier was refused as a duplicate, and no array is allocated. *)
Theorem rejected_shape_aborts_construction (input_shape : shape_t)
    (layers : list (BaseLayer Data Rng)) (lossf : Data → Data → res ndvalue)
    (kwargs : gmap string kwval) (g : Rng) (h : heap_t) (e : exn) :
  out_shape layers input_shape = Raise e →
  ∃ e' g',
    __init__ (OptSt := OptSt) input_shape layers lossf kwargs g h = (Raise e', g', h)
    ∧ (e' = e ∨ e' = DuplicateIdentifierError).
Proof.
  intros Hshape. unfold __init__.
  destruct (init_layers_rejected layers 0 input_shape new_parser [] g e Hshape)
    as (e' & g' & -> & He').
  by eexists _, _.
Qed.






Lemma fadd_regularization_term (a c : float) :
  is_finite c = true → same_up_to_zero_sign a (fadd a (fmul c fzero)).
Proof.
  unfold same_up_to_zero_sign.
  destruct c as [sc|sc| |sc mc ec]; try done; intros _;
    destruct a as [sa|sa| |sa ma ea]; simpl;
    try (by left); try (by right);
    repeat match goal with b : bool |- _ => destruct b end; simpl; auto.
Qed.

Lemma fadd_nan_term (a c : float) :
  is_finite c = false → fadd a (fmul c fzero) = S754_nan.
Proof.
  destruct c as [sc|sc| |sc mc ec]; try done; intros _;
    by destruct a as [sa|sa| |sa ma ea].
Qed.

(** X6: what the regularization term does to [eval].  When the forward pass
    succeeds and the loss collaborator returns an array, [eval] returns that
    array with [reg_coef * 0.0] added to every element: for a finite
    [reg_coef] each element is unchanged, except that a zero may change
    sign; for an infinite or NaN [reg_coef] every element is NaN. *)
Theorem eval_adds_reg_coef_times_zero s (x y pred : Data) (a : vec) (c : float) :
  reg_coef (self s) = KNum c →
  _predict (self s) (deref (heap s) (W_vect (self s))) x = Ok pred →
  _loss (self s) pred y = Ok (Array1 a) →
  ∃ a' : vec,
    eval x y s = (Ok (Array1 a'), s)
    ∧ (is_finite c = true → Forall2 same_up_to_zero_sign a a')
    ∧ (is_finite c = false → Forall (λ v, v = S754_nan) a').
Proof.
  intros Hc Hpred Hloss.
  exists ((λ v, fadd v (fmul c fzero)) <$> a). split_and!.
  - unfold eval, loss. rewrite !andb_false_r. simpl.
    rewrite Hpred. simpl. rewrite Hloss. simpl. by rewrite Hc.
  - intros Hfin. apply Forall2_fmap_r, Forall_Forall2_diag, Forall_forall.
    intros v _. by apply fadd_regularization_term.
  - intros Hinf. apply Forall_fmap, Forall_forall. intros v _. simpl.
    by apply fadd_nan_term.
Qed.

(** X7: the constructor does not check [reg_coef].  With a [reg_coef]
    keyword that is not a number construction can still succeed, and then
    no call of [loss] on a parameter vector returns a value: it raises
    [TypeError] at the multiplication whenever the forward pass and the
    loss collaborator succeed. *)
Theorem non_numeric_reg_coef_breaks_loss (input_shape : shape_t)
    (layers : list (BaseLayer Data Rng)) (lossf : Data → Data → res ndvalue)
    (kwargs : gmap string kwval) (g g' : Rng) (h h' : heap_t) self (v : kwval) :
  kwargs !! "reg_coef" = Some v →
  (∀ c, v ≠ KNum c) →
  __init__ (OptSt := OptSt) input_shape layers lossf kwargs g h = (Ok self, g', h') →
  ∀ (W : vec) (X y : Data) (omit_reg : bool),
    (∃ e, loss self (Some W) X y omit_reg = Raise e)
    ∧ ∀ pred base,
        _predict self (Some W) X = Ok pred →
        lossf pred y = Ok base →
        loss self (Some W) X y omit_reg = Raise TypeError.
Proof.
  intros Hkw Hv Hrun W X y omit_reg. unfold __init__ in Hrun. rewrite Hkw in Hrun.
  destruct (init_layers 0 layers input_shape new_parser [] g)
    as [[[[ls p] W0]|e] g1]; simplify_eq/=.
  assert (∀ reg, kw_mul v reg = Raise TypeError) as Hmul.
  { intros reg. destruct v; try done. by destruct (Hv x). }
  unfold loss. simpl.
  set (reg := if kw_eqb _ "l2" && negb omit_reg then _ else _).
  assert (∃ r, reg = Ok r) as [r ->].
  { unfold reg. repeat case_match; simpl; eauto. }
  simpl. split.
  - destruct (_predict _ _ _) as [pred|e]; simpl; [|by eexists].
    destruct (lossf pred y) as [base|e]; simpl; [|by eexists].
    rewrite Hmul. by eexists.
  - intros pred base -> . simpl. intros ->. simpl. by rewrite Hmul.
Qed.

End MoreProperties.

(** ** Further properties of [fit] *)

Section MoreFitProperties.

Context {Data Rng OptSt : Type} `{NumPy}.
Variable gen_batch : Data * Data → Z → list (Data * Data).
Implicit Types (self : FFN Data Rng OptSt) (s : State Data Rng OptSt).
Implicit Types (o : BaseOptimizer Data OptSt) (L : Locals).

(** X8: a negative [epochs] is truthy, so it is kept, and [range] of it is
    empty: [fit] binds [_optimiser], trains nothing and returns the empty
    history; with [load_best_model_on_end] true it then binds [W_vect] to
    the never-set [best_inst], that is [None], and otherwise leaves
    [W_vect] alone. *)
Theorem negative_epochs_train_nothing o (train_sample validation_sample : Data * Data)
    (batch_size n : Z) (verbose : option bool)
    (load_best_model_on_end minimize_metric : bool) s :
  n < 0 →
  fit gen_batch o train_sample validation_sample batch_size (Some n) verbose
    load_best_model_on_end minimize_metric s
  = (Ok {| epoch := []; train_loss := []; validation_loss := [] |},
     let s1 := {| self := set_optimiser o (self s); heap := heap s |} in
     if load_best_model_on_end then (set_W_vect None s1).2 else s1).
Proof.
  intros Hn. rewrite fit_unfold.
  assert (py_range (effective_epochs (Some n)) = []) as ->.
  { unfold effective_epochs, py_range.
    destruct (Z.eqb_spec n 0); [lia|]. by rewrite Z2Nat.nonpos by lia. }
  done.
Qed.

Lemma epoch_loop_history tr va bs verbose mm indices : ∀ L s L' s',
  epoch_loop gen_batch tr va bs verbose mm indices L s = (Ok L', s') →
  ∃ k : nat,
    (k ≤ length indices)%nat
    ∧ (indices ≠ [] → (0 < k)%nat)
    ∧ ((k < length indices)%nat → to_stop L' = true)
    ∧ epoch (history L') = epoch (history L) ++ take k indices
    ∧ length (train_loss (history L')) = (length (train_loss (history L)) + k)%nat
    ∧ length (validation_loss (history L'))
      = (length (validation_loss (history L)) + k)%nat.
Proof.
  induction indices as [|i rest IH]; intros L s L' s' Hrun.
  - cbv [epoch_loop mret M_ret] in Hrun. simplify_eq.
    exists 0%nat. simpl. rewrite app_nil_r. split_and!; try done; lia.
  - simpl in Hrun. rewrite run_bind in Hrun.
    destruct (epoch_body _ _ _ _ _ _ i L s) as [[L1|e] s1] eqn:Hbody; [|done].
    apply epoch_body_inv in Hbody
      as (La & sa & v & val_loss & _ & _ & _ & Hh & _ & _).
    destruct (to_stop L1) eqn:Hstop.
    + cbv [mret M_ret] in Hrun. simplify_eq.
      exists 1%nat. rewrite Hh. simpl. rewrite !length_app. simpl.
      split_and!; try done; lia.
    + apply IH in Hrun as (k & Hk & _ & Hlt & He & Ht & Hv).
      exists (S k). rewrite He, Ht, Hv, Hh. simpl.
      rewrite !length_app, <- (assoc_L (++)). simpl.
      split_and!; try done; try lia. intros ?. apply Hlt. lia.
Qed.

(** X9: the shape of the returned history.  When [fit] returns, the epoch
    list is [0, 1, ..., k-1] for the number [k] of epochs run, the lists of
    training and validation losses have [k] entries each, [k] is at most
    the effective number of epochs, and at least 1 when that number is
    positive. *)
Theorem history_lists_run_in_step o (train_sample validation_sample : Data * Data)
    (batch_size : Z) (epochs : option Z) (verbose : option bool)
    (load_best_model_on_end minimize_metric : bool) s hist s' :
  fit gen_batch o train_sample validation_sample batch_size epochs verbose
    load_best_model_on_end minimize_metric s = (Ok hist, s') →
  ∃ k : nat,
    epoch hist = py_range (Z.of_nat k)
    ∧ length (train_loss hist) = k
    ∧ length (validation_loss hist) = k
    ∧ (k ≤ Z.to_nat (effective_epochs epochs))%nat
    ∧ (0 < effective_epochs epochs → (0 < k)%nat).
Proof.
  intros Hfit. rewrite fit_unfold in Hfit.
  destruct (epoch_loop _ _ _ _ _ _ _ _ _) as [[L|e] s1] eqn:Hloop; [|done].
  apply epoch_loop_history in Hloop as (k & Hk & Hpos & _ & He & Ht & Hv).
  simplify_eq. exists k. unfold py_range in *.
  rewrite length_fmap, length_seq in Hk.
  rewrite He, Ht, Hv. simpl.
  rewrite <- fmap_take, take_seq, Nat2Z.id, Nat.min_l by done.
  split_and!; try done.
  intros Hn. apply Hpos.
  destruct (Z.to_nat (effective_epochs epochs)) eqn:Hz; [lia|done].
Qed.

Lemma batch_loop_no_stop o verbose batches : ∀ L s L1 s1,
  never_stops o →
  optimiser_bound o s →
  batch_loop verbose batches L s = (Ok L1, s1) →
  to_stop L = false →
  to_stop L1 = false.
Proof.
  induction batches as [|[X y] rest IH]; intros L s L1 s1 Hnever Hbound Hrun Hstop.
  - cbv [batch_loop mret M_ret] in Hrun. by simplify_eq.
  - simpl in Hrun. rewrite run_bind in Hrun.
    pose proof (framed_optimiser_apply o X y verbose s) as [_ Hb].
    destruct (optimiser_apply X y verbose s) as [[[[stop ni] l]|e] s2] eqn:Happ;
      [|done].
    rewrite run_bind in Hrun. simpl in Hb.
    assert (stop = false) as ->.
    { destruct Hbound as (o' & Ho' & Heq). unfold optimiser_apply in Happ.
      rewrite Ho' in Happ.
      destruct (apply o' _ _ _ _ _ _ _) as [[r st] h'] eqn:Hcall.
      rewrite Heq in Hcall. simplify_eq. by eapply Hnever. }
    eapply IH; [done| |exact Hrun|done].
    destruct (Hb Hbound) as (o' & ? & ?). by exists o'.
Qed.

Lemma epoch_loop_never_stops o tr va bs verbose mm indices : ∀ L s L' s',
  never_stops o →
  optimiser_bound o s →
  epoch_loop gen_batch tr va bs verbose mm indices L s = (Ok L', s') →
  epoch (history L') = epoch (history L) ++ indices.
Proof.
  induction indices as [|i rest IH]; intros L s L' s' Hnever Hbound Hrun.
  - cbv [epoch_loop mret M_ret] in Hrun. simplify_eq. by rewrite app_nil_r.
  - simpl in Hrun. rewrite run_bind in Hrun.
    pose proof (framed_epoch_body gen_batch o tr va bs verbose mm i L s) as [_ Hb].
    destruct (epoch_body _ _ _ _ _ _ i L s) as [[L1|e] s1] eqn:Hbody; [|done].
    simpl in Hb.
    apply epoch_body_inv in Hbody
      as (La & sa & v & val_loss & Hbatches & _ & _ & Hh & Hstop & _).
    apply batch_loop_no_stop with (o := o) in Hbatches; [|done..].
    rewrite Hstop, Hbatches in Hrun.
    apply IH in Hrun; [|done|by apply Hb].
    rewrite Hrun, Hh. simpl. by rewrite <- (assoc_L (++)).
Qed.

(** X10: with an optimiser that never signals stop, a [fit] that returns
    has run every epoch: the epoch list of the history is
    [range(epochs)], for the effective number of epochs. *)
Theorem full_run_without_stop_signal o (train_sample validation_sample : Data * Data)
    (batch_size : Z) (epochs : option Z) (verbose : option bool)
    (load_best_model_on_end minimize_metric : bool) s hist s' :
  never_stops o →
  fit gen_batch o train_sample validation_sample batch_size epochs verbose
    load_best_model_on_end minimize_metric s = (Ok hist, s') →
  epoch hist = py_range (effective_epochs epochs).
Proof.
  intros Hnever Hfit. rewrite fit_unfold in Hfit.
  destruct (epoch_loop _ _ _ _ _ _ _ _ _) as [[L|e] s1] eqn:Hloop; [|done].
  apply epoch_loop_never_stops with (o := o) in Hloop; [|done|by exists o].
  by simplify_eq.
Qed.

(** X11: an epoch without batches only validates.  When the batching
    collaborator yields nothing, an epoch that completes has not called the
    optimiser and has not rebound any field of the network; it records
    [np.mean([])] as training loss and the loss of the current live vector
    as validation loss, leaves [to_stop] false, and changes the heap at
    most by the one array of a new snapshot. *)
Theorem epoch_without_batches_only_validates
    (train_sample validation_sample : Data * Data) (batch_size : Z)
    (verbose minimize_metric : bool) (i : Z) L s L' s' :
  gen_batch train_sample batch_size = [] →
  epoch_body gen_batch train_sample validation_sample batch_size verbose
    minimize_metric i L s = (Ok L', s') →
  self s' = self s
  ∧ (heap s' = heap s ∨ ∃ w, heap s' = heap s ++ [w])
  ∧ to_stop L' = false
  ∧ ∃ v val_loss,
      loss (self s) (deref (heap s) (W_vect (self s)))
        validation_sample.1 validation_sample.2 true = Ok v
      ∧ getitem0 v = Ok val_loss
      ∧ history L' =
          {| epoch := epoch (history L) ++ [i];
             train_loss := train_loss (history L) ++ [np_mean []];
             validation_loss := validation_loss (history L) ++ [val_loss] |}.
Proof.
  intros Hnil Hbody.
  apply epoch_body_inv in Hbody
    as (L1 & s1 & v & val_loss & Hb & Hv & Hget & Hh & Hstop & Hbest).
  rewrite Hnil in Hb. cbv [batch_loop mret M_ret] in Hb. simplify_eq.
  assert (self s' = self s1 ∧ (heap s' = heap s1 ∨ ∃ w, heap s' = heap s1 ++ [w]))
    as [Hself Hheap].
  { destruct (improves minimize_metric val_loss (best_score L)).
    - destruct Hbest as (_ & _ & Hcopy). unfold deepcopy_W_vect in Hcopy.
      destruct (deref _ _); simplify_eq/=; eauto.
    - destruct Hbest as (_ & _ & _ & ->). eauto. }
  split_and!; [done..|]. by exists v, val_loss.
Qed.

(** X12: an error of the optimiser is not caught and nothing is retried.
    If the optimiser raises on some batch of an epoch, after the batches
    before it went through, the epoch loop raises that error in the state
    the optimiser left: the later batches, the epoch's history entry, its
    validation and the remaining epochs are all skipped. *)
Theorem optimiser_error_aborts_training
    (train_sample validation_sample : Data * Data) (batch_size : Z)
    (verbose minimize_metric : bool) (i : Z) (rest : list Z) L s
    (front back : list (Data * Data)) (X y : Data) L1 s1 (e : exn) s2 :
  gen_batch train_sample batch_size = front ++ (X, y) :: back →
  batch_loop verbose front (start_epoch L) s = (Ok L1, s1) →
  optimiser_apply X y verbose s1 = (Raise e, s2) →
  epoch_loop gen_batch train_sample validation_sample batch_size verbose
    minimize_metric (i :: rest) L s = (Raise e, s2).
Proof.
  intros Hgen Hfront Happ. simpl. rewrite run_bind. unfold epoch_body.
  rewrite run_bind, Hgen, batch_loop_app, run_bind, Hfront. simpl.
  by rewrite run_bind, Happ.
Qed.

Lemma batch_loop_adopts verbose batches : ∀ L s L1 s1,
  batch_loop verbose batches L s = (Ok L1, s1) →
  (W_vect (self s) = inst L ∧ is_Some (inst L)
   ∧ last (tr_accum_loss L) = Some (tr_loss L)) →
  W_vect (self s1) = inst L1 ∧ is_Some (inst L1)
  ∧ last (tr_accum_loss L1) = Some (tr_loss L1).
Proof.
  induction batches as [|[X y] rest IH]; intros L s L1 s1 Hrun Hstart.
  - cbv [batch_loop mret M_ret] in Hrun. by simplify_eq.
  - simpl in Hrun. rewrite run_bind in Hrun.
    destruct (optimiser_apply X y verbose s) as [[[[stop ni] l]|e] s2]; [|done].
    rewrite run_bind in Hrun. cbn [set_W_vect] in Hrun.
    apply IH in Hrun; [done|]. simpl. by rewrite last_snoc.
Qed.

Lemma batch_loop_losses verbose batches : ∀ L s L1 s1,
  batch_loop verbose batches L s = (Ok L1, s1) →
  length (tr_accum_loss L1) = (length (tr_accum_loss L) + length batches)%nat.
Proof.
  induction batches as [|[X y] rest IH]; intros L s L1 s1 Hrun.
  - cbv [batch_loop mret M_ret] in Hrun. simplify_eq. simpl. lia.
  - simpl in Hrun. rewrite run_bind in Hrun.
    destruct (optimiser_apply X y verbose s) as [[[[stop ni] l]|e] s2]; [|done].
    rewrite run_bind in Hrun. cbn [set_W_vect] in Hrun.
    apply IH in Hrun. rewrite Hrun. simpl. rewrite length_app. simpl. lia.
Qed.

(** X13: every update is adopted at once.  After any non-empty run of
    batches that went through, whatever was live before, the live vector
    is the array the optimiser returned for the last of them (so the next
    call of the optimiser, and validation, see it), exactly one loss per
    batch has been accumulated for the epoch's mean, and the last of them
    is the last batch's. *)
Theorem live_vector_is_last_returned (verbose : bool)
    (batches : list (Data * Data)) L s L1 s1 :
  batches ≠ [] →
  batch_loop verbose batches (start_epoch L) s = (Ok L1, s1) →
  W_vect (self s1) = inst L1
  ∧ is_Some (inst L1)
  ∧ length (tr_accum_loss L1) = length batches
  ∧ last (tr_accum_loss L1) = Some (tr_loss L1).
Proof.
  intros Hne Hrun. apply batch_loop_losses in Hrun as Hlen. simpl in Hlen.
  destruct batches as [|[X y] rest]; [done|]. clear Hne.
  simpl in Hrun. rewrite run_bind in Hrun.
  destruct (optimiser_apply X y verbose s) as [[[[stop ni] l]|e] s2]; [|done].
  rewrite run_bind in Hrun. cbn [set_W_vect] in Hrun.
  apply batch_loop_adopts in Hrun as (? & ? & ?); [done|].
  simpl. split_and!; [done|by eexists|done].
Qed.

Lemma epoch_loop_history_grows tr va bs verbose mm indices : ∀ L s L' s',
  epoch_loop gen_batch tr va bs verbose mm indices L s = (Ok L', s') →
  ∃ more, validation_loss (history L') = validation_loss (history L) ++ more.
Proof.
  induction indices as [|i rest IH]; intros L s L' s' Hrun.
  - cbv [epoch_loop mret M_ret] in Hrun. simplify_eq. exists []. by rewrite app_nil_r.
  - simpl in Hrun. rewrite run_bind in Hrun.
    destruct (epoch_body _ _ _ _ _ _ i L s) as [[L1|e] s1] eqn:Hbody; [|done].
    apply epoch_body_inv in Hbody
      as (La & sa & v & val_loss & _ & _ & _ & Hh & _ & _).
    destruct (to_stop L1).
    + cbv [mret M_ret] in Hrun. simplify_eq. rewrite Hh. by eexists.
    + apply IH in Hrun as (more & ->). rewrite Hh. simpl.
      rewrite <- (assoc_L (++)). by eexists.
Qed.

Lemma epoch_loop_no_improvement tr va bs verbose mm indices : ∀ L s L' s',
  epoch_loop gen_batch tr va bs verbose mm indices L s = (Ok L', s') →
  best_inst L = None →
  (∀ v, v ∈ validation_loss (history L') → improves mm v (best_score L) = false) →
  best_inst L' = None ∧ best_score L' = best_score L.
Proof.
  induction indices as [|i rest IH]; intros L s L' s' Hrun Hnone Hall.
  - cbv [epoch_loop mret M_ret] in Hrun. by simplify_eq.
  - simpl in Hrun. rewrite run_bind in Hrun.
    destruct (epoch_body _ _ _ _ _ _ i L s) as [[L1|e] s1] eqn:Hbody; [|done].
    apply epoch_body_inv in Hbody
      as (La & sa & v & val_loss & _ & _ & _ & Hh & _ & Hbest).
    assert (val_loss ∈ validation_loss (history L')) as Hin.
    { destruct (to_stop L1).
      - cbv [mret M_ret] in Hrun. simplify_eq. rewrite Hh. simpl.
        apply elem_of_app. right. by apply list_elem_of_singleton.
      - apply epoch_loop_history_grows in Hrun as (more & ->). rewrite Hh. simpl.
        apply elem_of_app. left. apply elem_of_app. right.
        by apply list_elem_of_singleton. }
    rewrite (Hall _ Hin) in Hbest. destruct Hbest as (Hscore & _ & Hinst & ->).
    destruct (to_stop L1).
    + cbv [mret M_ret] in Hrun. simplify_eq. by rewrite Hinst, Hscore.
    + rewrite <- Hscore. apply IH in Hrun; [done|congruence|by rewrite Hscore].
Qed.

(** X14: training that never beats the initial score loses the network's
    parameters.  If the epoch loop exits normally and no recorded
    validation loss is strictly better than the initial [best_score]
    ([+inf] when minimizing, [-inf] when maximizing), as when every
    validation loss is NaN, then no snapshot was taken, and with
    [load_best_model_on_end] true [fit] returns with [W_vect] bound to
    [None]. *)
Theorem no_improvement_unbinds_W_vect o (train_sample validation_sample : Data * Data)
    (batch_size : Z) (epochs : option Z) (verbose : option bool)
    (minimize_metric : bool) s L s1 :
  fit_loop gen_batch o train_sample validation_sample batch_size epochs verbose
    minimize_metric s = (Ok L, s1) →
  (∀ v, v ∈ validation_loss (history L) →
        improves minimize_metric v
          (if minimize_metric then np_inf else np_neg_inf) = false) →
  best_inst L = None
  ∧ ∃ s',
      fit gen_batch o train_sample validation_sample batch_size epochs verbose
        true minimize_metric s = (Ok (history L), s')
      ∧ W_vect (self s') = None
      ∧ heap s' = heap s1.
Proof.
  intros Hrun Hall.
  assert (best_inst L = None) as Hnone.
  { unfold fit_loop in Hrun. rewrite run_bind in Hrun. cbn [assign_optimiser] in Hrun.
    by apply epoch_loop_no_improvement in Hrun as [? _]. }
  split; [done|].
  exists (set_W_vect None s1).2. rewrite fit_unfold.
  unfold fit_loop in Hrun. rewrite run_bind in Hrun. cbn [assign_optimiser] in Hrun.
  by rewrite Hrun, Hnone.
Qed.

(** X15: [load_best_model_on_end] decides the final binding of [W_vect] and
    nothing else.  With the flag true or false [fit] returns the same
    history, or raises the same error, and leaves the same heap and the
    same optimiser; with the flag false the final state is the one the
    epoch loop left, and when [fit] raises the flag has no effect at all:
    the snapshot is not loaded. *)
Theorem load_best_flag_only_rebinds_W_vect o
    (train_sample validation_sample : Data * Data) (batch_size : Z)
    (epochs : option Z) (verbose : option bool) (minimize_metric : bool) s :
  let loaded := fit gen_batch o train_sample validation_sample batch_size epochs
                  verbose true minimize_metric s in
  let kept := fit gen_batch o train_sample validation_sample batch_size epochs
                verbose false minimize_metric s in
  let looped := fit_loop gen_batch o train_sample validation_sample batch_size
                  epochs verbose minimize_metric s in
  loaded.1 = kept.1
  ∧ heap loaded.2 = heap kept.2
  ∧ _optimiser (self loaded.2) = _optimiser (self kept.2)
  ∧ same_config (self kept.2) (self loaded.2)
  ∧ kept.2 = looped.2
  ∧ (∀ e, kept.1 = Raise e → loaded = kept).
Proof.
  simpl. rewrite !fit_unfold. unfold fit_loop. rewrite run_bind.
  cbn [assign_optimiser].
  destruct (epoch_loop _ _ _ _ _ _ _ _ _) as [[L|e] s1]; simpl.
  - by repeat split.
  - by repeat split.
Qed.

End MoreFitProperties.

(** ** The further properties on concrete collaborators *)

Section MoreRuns.

Import Stub StubMore.

(** Witness of X4: [flat_only] is handed the two-dimensional output shape
    of [widen]. *)
Lemma rejected_shape_aborts_construction_witness :
  ∃ e e' g',
    out_shape [widen; flat_only] [3] = Raise e
    ∧ __init__ (OptSt := script) [3] [widen; flat_only] loss_array ∅ 0%nat []
      = (Raise e', g', [])
    ∧ e' = e.
Proof.
  assert (out_shape [widen; flat_only] [3]
          = Raise (CollaboratorError "IncompatibleShapeError")) as Hshape
    by reflexivity.
  destruct (rejected_shape_aborts_construction (OptSt := script) [3]
              [widen; flat_only] loss_array ∅ 0%nat [] _ Hshape)
    as (e' & g' & Hinit & _).
  exists (CollaboratorError "IncompatibleShapeError"), e', g'.
  split; [exact Hshape|]. split; [exact Hinit|].
  vm_compute in Hinit. by injection Hinit as <- _.
Defined.



(** Witness of X6: the default [reg_coef] leaves the validation loss of the
    constructed network as the loss collaborator returned it. *)
Lemma eval_adds_reg_coef_times_zero_witness :
  ∃ a' : vec,
    eval [one] [one] (start loss_array) = (Ok (Array1 a'), start loss_array)
    ∧ Forall2 same_up_to_zero_sign [fmul f0_1 one] a'.
Proof.
  destruct (eval_adds_reg_coef_times_zero (start loss_array) [one] [one]
              [fmul f0_1 one; fmul f0_1 one] [fmul f0_1 one] fzero)
    as (a' & Heval & Hfin & _); [reflexivity..|].
  exists a'. split; [exact Heval|]. by apply Hfin.
Defined.

(** Witness of X7: [reg_coef="0.1"], a string. *)
Lemma non_numeric_reg_coef_breaks_loss_witness :
  ∃ (self : FFN vec nat script) g' h',
    kwargs_text !! "reg_coef" = Some (KStr "0.1")
    ∧ __init__ [1] [layer "Dense" 2] loss_array kwargs_text 0%nat [] = (Ok self, g', h')
    ∧ loss self (Some [two; one]) [one] [one] true = Raise TypeError.
Proof.
  assert (kwargs_text !! "reg_coef" = Some (KStr "0.1")) as Hkw
    by (vm_compute; reflexivity).
  pose proof (λ g' h' self,
    non_numeric_reg_coef_breaks_loss (OptSt := script) [1] [layer "Dense" 2]
      loss_array kwargs_text 0%nat g' [] h' self (KStr "0.1") Hkw
      (λ c Heq, ltac:(discriminate Heq))) as Hthm.
  eexists _, _, _.
  split; [exact Hkw|]. split; [vm_compute; reflexivity|].
  edestruct Hthm as [_ Htype]; [vm_compute; reflexivity|].
  eapply Htype; vm_compute; reflexivity.
Defined.

(** Witness of X8: [epochs = -1] with the snapshot loaded at the end. *)
Lemma negative_epochs_train_nothing_witness :
  ∃ s',
    fit one_batch descending sample sample 1 (Some (-1)) None true true
      (start loss_array)
    = (Ok {| epoch := []; train_loss := []; validation_loss := [] |}, s')
    ∧ W_vect (self s') = None
    ∧ opt_state <$> _optimiser (self s') = Some (opt_state descending).
Proof.
  eexists. split.
  - apply (negative_epochs_train_nothing one_batch descending sample sample 1 (-1)
             None true true (start loss_array)). lia.
  - split; reflexivity.
Defined.

(** Witness of X9: three epochs asked for, the stop flag ends the run after
    the first. *)
Lemma history_lists_run_in_step_witness :
  ∃ hist s' (k : nat),
    fit two_batches stop_last sample sample 1 (Some 3) None true true
      (start loss_array) = (Ok hist, s')
    ∧ epoch hist = py_range (Z.of_nat k)
    ∧ length (train_loss hist) = k
    ∧ length (validation_loss hist) = k
    ∧ k = 1%nat.
Proof.
  pose proof (history_lists_run_in_step two_batches stop_last sample sample 1
                (Some 3) None true true (start loss_array)) as Hthm.
  edestruct Hthm as (k & He & Ht & Hv & _); [vm_compute; reflexivity|].
  eexists _, _, k.
  split; [vm_compute; reflexivity|].
  split; [exact He|]. split; [exact Ht|]. split; [exact Hv|].
  vm_compute in Ht. by symmetry.
Defined.

Lemma steady_never_stops : never_stops steady.
Proof. intros st h lossf X y W verbose stop ni l st' h' [= <- _ _ _ _]. done. Qed.

(** Witness of X10: four epochs of two batches each. *)
Lemma full_run_without_stop_signal_witness :
  ∃ hist s',
    fit two_batches steady sample sample 1 (Some 4) None true true
      (start loss_array) = (Ok hist, s')
    ∧ epoch hist = [0; 1; 2; 3].
Proof.
  pose proof (full_run_without_stop_signal two_batches steady sample sample 1
                (Some 4) None true true (start loss_array)) as Hthm.
  eexists _, _.
  split; [vm_compute; reflexivity|].
  eapply Hthm; [exact steady_never_stops|]. vm_compute. reflexivity.
Defined.

(** Witness of X11: no batch, two epochs; the live vector stays the
    constructed one. *)
Lemma epoch_without_batches_only_validates_witness :
  ∃ L' s',
    epoch_body no_batches sample sample 1 false true 0 (initial_locals true)
      (entered loss_array steady) = (Ok L', s')
    ∧ self s' = self (entered loss_array steady)
    ∧ to_stop L' = false
    ∧ validation_loss (history L') = [fadd (fmul f0_1 one) (fmul fzero fzero)].
Proof.
  pose proof (epoch_without_batches_only_validates no_batches sample sample 1
                false true 0 (initial_locals true) (entered loss_array steady))
    as Hthm.
  eexists _, _.
  edestruct Hthm as (Hself & _ & Hstop & _); [reflexivity|vm_compute; reflexivity|].
  split; [vm_compute; reflexivity|].
  split; [exact Hself|]. split; [exact Hstop|]. vm_compute. reflexivity.
Defined.

(** Witness of X12: the script runs out at the second batch of epoch 0. *)
Lemma optimiser_error_aborts_training_witness :
  ∃ L1 s1 s2,
    batch_loop false [sample] (start_epoch (initial_locals true))
      (entered loss_array diverging) = (Ok L1, s1)
    ∧ optimiser_apply [one] [one] false s1
      = (Raise (CollaboratorError "optimiser"), s2)
    ∧ epoch_loop two_batches sample sample 1 false true [0; 1; 2]
        (initial_locals true) (entered loss_array diverging)
      = (Raise (CollaboratorError "optimiser"), s2).
Proof.
  pose proof (λ L1 s1 s2,
    optimiser_error_aborts_training two_batches sample sample 1 false true 0
      [1; 2] (initial_locals true) (entered loss_array diverging) [sample] []
      [one] [one] L1 s1 (CollaboratorError "optimiser") s2 eq_refl) as Hthm.
  edestruct (λ L1 s1 s2 H1 H2, conj H1 (conj H2 (Hthm L1 s1 s2 H1 H2)))
    as (H1 & H2 & H3); [vm_compute; reflexivity..|].
  eexists _, _, _. split; [exact H1|]. split; [exact H2|exact H3].
Defined.

(** Witness of X13: two batches with the in-place optimiser. *)
Lemma live_vector_is_last_returned_witness :
  ∃ L1 s1,
    batch_loop false [sample; sample] (start_epoch (initial_locals true))
      (entered loss_array in_place) = (Ok L1, s1)
    ∧ W_vect (self s1) = inst L1
    ∧ length (tr_accum_loss L1) = 2%nat.
Proof.
  pose proof (λ L1 s1,
    live_vector_is_last_returned false [sample; sample] (initial_locals true)
      (entered loss_array in_place) L1 s1 ltac:(discriminate)) as Hthm.
  eexists _, _.
  edestruct Hthm as (HW & _ & Hlen & _); [vm_compute; reflexivity|].
  split; [vm_compute; reflexivity|]. split; [exact HW|exact Hlen].
Defined.

(** Witness of X14: the only validation loss is [+inf]. *)
Lemma no_improvement_unbinds_W_vect_witness :
  ∃ L s1 s',
    fit_loop one_batch diverging sample sample 1 (Some 1) None true
      (start loss_array) = (Ok L, s1)
    ∧ validation_loss (history L) = [np_inf]
    ∧ best_inst L = None
    ∧ fit one_batch diverging sample sample 1 (Some 1) None true true
        (start loss_array) = (Ok (history L), s')
    ∧ W_vect (self s') = None.
Proof.
  pose proof (no_improvement_unbinds_W_vect one_batch diverging sample sample 1
                (Some 1) None true (start loss_array)) as Hthm.
  edestruct Hthm as (Hnone & s' & Hfit & HW & _); [vm_compute; reflexivity| |].
  { intros v Hv. vm_compute in Hv. apply list_elem_of_singleton in Hv as ->.
    reflexivity. }
  eexists _, _, s'.
  split; [vm_compute; reflexivity|].
  split; [vm_compute; reflexivity|].
  split; [exact Hnone|]. split; [exact Hfit|exact HW].
Defined.

End MoreRuns.
